(** * Telegram HTTP client facade (telegram_client.py)

    A shallow embedding of [TelegramClient]: construction, the core request
    path [_request] with its envelope unwrapping, the verb helpers
    [_get] / [_post] / [_put] / [_delete], the health check, and the
    catalogue of public operations.

    Python values are a small inductive type with Python's truthiness.
    The HTTP library and the remote service are an oracle from requests to
    outcomes; every request handed to the HTTP library is logged, so that
    statements about "the outgoing request" are statements about the log. *)

From Stdlib Require Import ZArith NArith List String Ascii Bool Lia.
From Stdlib Require Import PrimFloat DecimalString.
From Stdlib Require DecimalPos DecimalZ.
Import ListNotations.
Local Open Scope string_scope.
Set Warnings "-register-all".

(** ** Python values *)

(** The values that JSON decoding produces and that the client passes
    around.  A [str] is kept as its UTF-8 bytes; a [dict] keeps insertion
    order, as Python's does. *)
Inductive value : Type :=
| VNone
| VBool (b : bool)
| VInt (n : Z)
| VFloat (x : float)
| VStr (s : string)
| VList (items : list value)
| VDict (items : list (string * value)).

Definition dict := list (string * value).

(** [bool(v)]: what [if v:] and [not v] test. *)
Definition truthy (v : value) : bool :=
  match v with
  | VNone => false
  | VBool b => b
  | VInt n => negb (n =? 0)%Z
  | VFloat x => negb (PrimFloat.eqb x 0%float)
  | VStr s => match s with EmptyString => false | String _ _ => true end
  | VList items => match items with [] => false | _ :: _ => true end
  | VDict items => match items with [] => false | _ :: _ => true end
  end.

(** [d.get(k)] as an option, [d.get(k)] and [d.get(k, default)]. *)
Fixpoint dict_lookup (d : dict) (k : string) : option value :=
  match d with
  | [] => None
  | (k', v) :: d' => if String.eqb k' k then Some v else dict_lookup d' k
  end.

Definition dict_get_default (d : dict) (k : string) (default : value) : value :=
  match dict_lookup d k with
  | Some v => v
  | None => default
  end.

Definition dict_get (d : dict) (k : string) : value :=
  dict_get_default d k VNone.

Definition dict_has (d : dict) (k : string) : bool :=
  match dict_lookup d k with Some _ => true | None => false end.

(** [d[k] = v]: an existing key keeps its position, a new one goes last. *)
Fixpoint dict_set (d : dict) (k : string) (v : value) : dict :=
  match d with
  | [] => [(k, v)]
  | (k', v') :: d' =>
      if String.eqb k' k then (k', v) :: d' else (k', v') :: dict_set d' k v
  end.

(** ** Decoding JSON

    What [json.loads] and [response.json()] do with a text: they return
    the decoded value or raise.  Besides [json.JSONDecodeError], for a
    text that is not JSON, the decoder raises [ValueError] for an integer
    literal with more digits than the interpreter converts,
    [RecursionError] for containers nested deeper than its recursion
    allows, and, on bytes, [UnicodeDecodeError]. *)
Inductive decode_error :=
| InvalidJSON        (* json.JSONDecodeError *)
| IntegerTooLong     (* ValueError *)
| NestingTooDeep     (* RecursionError *)
| InvalidUnicode.    (* UnicodeDecodeError *)

Inductive decoding :=
| Decoded (v : value)
| DecodeFails (e : decode_error).

(** ** The [json] module's decoder

    [json.loads] on a [str], in its default (strict) configuration.  The
    float constructor is a parameter, as in [json.loads(s, parse_float=...)],
    and so are the two limits of the interpreter.  The decoder is a lexer
    followed by a stack machine over tokens; it reads the text from left
    to right and fails at the first place where the recursive scanner of
    the [json] module fails, with the same exception. *)
Module Json.

(** [int_max_str_digits] is [sys.get_int_max_str_digits()]: 0 for no
    limit (and for an interpreter without one), 4300 by default, never
    between 1 and 639.
    [max_depth] is the number of containers that can be open at once
    before the decoder's recursion fails; it depends on the recursion
    limit and on the depth of the call. *)
Record limits := {
  int_max_str_digits : nat;
  max_depth : nat
}.

Inductive token :=
| TLBrace | TRBrace | TLBracket | TRBracket | TComma | TColon
| TString (s : string)
| TAtom (v : value)
| TLongInt      (* an integer literal over the digit limit *)
| TInvalid.     (* no token starts here; nothing is read after it *)

Definition is_digit (c : ascii) : bool :=
  (48 <=? nat_of_ascii c)%nat && (nat_of_ascii c <=? 57)%nat.

Definition is_whitespace (c : ascii) : bool :=
  match nat_of_ascii c with
  | 32 | 9 | 10 | 13 => true
  | _ => false
  end.

Definition hex_value (c : ascii) : option N :=
  let n := N_of_ascii c in
  if (48 <=? n)%N && (n <=? 57)%N then Some (n - 48)%N
  else if (65 <=? n)%N && (n <=? 70)%N then Some (n - 55)%N
  else if (97 <=? n)%N && (n <=? 102)%N then Some (n - 87)%N
  else None.

(** [int(hhhh, 16)] for the four characters after [\u]. *)
Definition decode_uXXXX (a b c d : ascii) : option N :=
  match hex_value a, hex_value b, hex_value c, hex_value d with
  | Some x, Some y, Some z, Some w => Some (((x * 16 + y) * 16 + z) * 16 + w)%N
  | _, _, _, _ => None
  end.

(** [chr(n)] as UTF-8 bytes (a lone surrogate is written in the same
    three-byte form). *)
Definition utf8 (n : N) : string :=
  let byte k := ascii_of_N k in
  let cont k := byte (128 + N.land k 63)%N in
  if (n <? 128)%N then String (byte n) ""
  else if (n <? 2048)%N then
    String (byte (192 + N.shiftr n 6)%N) (String (cont n) "")
  else if (n <? 65536)%N then
    String (byte (224 + N.shiftr n 12)%N)
      (String (cont (N.shiftr n 6)) (String (cont n) ""))
  else
    String (byte (240 + N.shiftr n 18)%N)
      (String (cont (N.shiftr n 12))
         (String (cont (N.shiftr n 6)) (String (cont n) ""))).

Definition backslash (c : ascii) : option ascii :=
  match nat_of_ascii c with
  | 34 => Some c                       (* quote *)
  | 92 => Some c                       (* backslash *)
  | 47 => Some c                       (* slash *)
  | 98 => Some (ascii_of_nat 8)        (* b: backspace *)
  | 102 => Some (ascii_of_nat 12)      (* f: form feed *)
  | 110 => Some (ascii_of_nat 10)      (* n: line feed *)
  | 114 => Some (ascii_of_nat 13)      (* r: carriage return *)
  | 116 => Some (ascii_of_nat 9)       (* t: tab *)
  | _ => None
  end.

Definition is_high_surrogate (n : N) : bool := (55296 <=? n)%N && (n <=? 56319)%N.
Definition is_low_surrogate (n : N) : bool := (56320 <=? n)%N && (n <=? 57343)%N.

(** The pair of escapes that may follow a high surrogate: [Some (Some lo)]
    for a low surrogate to combine with, [Some None] when the high
    surrogate stays alone, [None] when a [\u] follows with bad digits. *)
Definition low_surrogate_after (s : string) : option (option N) :=
  match s with
  | String bs (String u rest) =>
      if (nat_of_ascii bs =? 92)%nat && (nat_of_ascii u =? 117)%nat then
        match rest with
        | String a (String b (String c (String d _))) =>
            match decode_uXXXX a b c d with
            | Some lo => Some (if is_low_surrogate lo then Some lo else None)
            | None => None
            end
        | _ => None
        end
      else Some None
  | _ => Some None
  end.

Definition prepend (p : string) (r : option (string * nat)) (used : nat)
  : option (string * nat) :=
  match r with
  | Some (text, n) => Some (p ++ text, used + n)%nat
  | None => None
  end.

(** [py_scanstring], entered just after the opening quote: the decoded
    text and the number of characters read, closing quote included. *)
Fixpoint scanstring (s : string) : option (string * nat) :=
  match s with
  | EmptyString => None                                   (* unterminated *)
  | String c rest =>
      if (nat_of_ascii c =? 34)%nat then Some ("", 1%nat)
      else if (nat_of_ascii c <? 32)%nat then None        (* control character *)
      else if (nat_of_ascii c =? 92)%nat then
        match rest with
        | EmptyString => None
        | String e rest1 =>
            if (nat_of_ascii e =? 117)%nat then
              match rest1 with
              | String a (String b (String c' (String d rest2))) =>
                  match decode_uXXXX a b c' d with
                  | None => None
                  | Some hi =>
                      if is_high_surrogate hi then
                        match low_surrogate_after rest2 with
                        | None => None
                        | Some None => prepend (utf8 hi) (scanstring rest2) 6
                        | Some (Some lo) =>
                            let uni := (65536 + N.lor (N.shiftl (hi - 55296) 10)
                                                      (lo - 56320))%N in
                            match rest2 with
                            | String _ (String _ (String _ (String _
                                (String _ (String _ rest3))))) =>
                                prepend (utf8 uni) (scanstring rest3) 12
                            | _ => None
                            end
                        end
                      else prepend (utf8 hi) (scanstring rest2) 6
                  end
              | _ => None
              end
            else
              match backslash e with
              | Some ch => prepend (String ch "") (scanstring rest1) 2
              | None => None
              end
        end
      else prepend (String c "") (scanstring rest) 1
  end.

(** The longest run of digits at the head of [s], and what follows it. *)
Fixpoint span_digits (s : string) : string * string :=
  match s with
  | String c rest =>
      if is_digit c then
        let (ds, tl) := span_digits rest in (String c ds, tl)
      else ("", s)
  | EmptyString => ("", "")
  end.

Definition int_of_digits (ds : string) : Z :=
  fold_left (fun acc c => (acc * 10 + Z.of_nat (nat_of_ascii c - 48))%Z)
            (list_ascii_of_string ds) 0%Z.

Section Numbers.
Variable lim : limits.
Variable parse_float : string -> float.

(** Whether [int] refuses a literal of [digits] digits. *)
Definition over_digit_limit (digits : nat) : bool :=
  negb (int_max_str_digits lim =? 0)%nat
  && (int_max_str_digits lim <? digits)%nat.

(** [NUMBER_RE] matched at the head of [s]: an optional minus sign and an
    integer part (a lone zero, or a non-zero digit and more digits), then
    optionally a fraction (a dot and digits), then optionally an exponent
    (e or E, an optional sign, digits).  The token and the length of the
    match; a match with a fraction or an exponent is a float, any other is
    an integer, which [int] converts unless it has too many digits. *)
Definition match_number (s : string) : option (token * nat) :=
  let (neg, s1) :=
    match s with
    | String c rest => if (nat_of_ascii c =? 45)%nat then (true, rest) else (false, s)
    | EmptyString => (false, s)
    end in
  let sign := if neg then "-" else "" in
  let (ds, _) := span_digits s1 in
  match ds with
  | EmptyString => None
  | String d0 _ =>
      let integer := if (nat_of_ascii d0 =? 48)%nat then "0" else ds in
      let s2 := substring (String.length integer) (String.length s1) s1 in
      let frac :=
        match s2 with
        | String c rest =>
            if (nat_of_ascii c =? 46)%nat then
              match fst (span_digits rest) with
              | EmptyString => ""
              | fs => String c fs
              end
            else ""
        | EmptyString => ""
        end in
      let s3 := substring (String.length frac) (String.length s2) s2 in
      let exp :=
        match s3 with
        | String e rest =>
            if (nat_of_ascii e =? 101)%nat || (nat_of_ascii e =? 69)%nat then
              match rest with
              | String sg rest' =>
                  if (nat_of_ascii sg =? 43)%nat || (nat_of_ascii sg =? 45)%nat then
                    match fst (span_digits rest') with
                    | EmptyString => ""
                    | es => String e (String sg es)
                    end
                  else
                    match fst (span_digits rest) with
                    | EmptyString => ""
                    | es => String e es
                    end
              | EmptyString => ""
              end
            else ""
        | EmptyString => ""
        end in
      let lexeme := sign ++ integer ++ frac ++ exp in
      match frac, exp with
      | EmptyString, EmptyString =>
          if over_digit_limit (String.length integer) then
            Some (TLongInt, String.length lexeme)
          else
            let n := int_of_digits integer in
            Some (TAtom (VInt (if neg then (- n)%Z else n)), String.length lexeme)
      | _, _ => Some (TAtom (VFloat (parse_float lexeme)), String.length lexeme)
      end
  end.

(** One step of [scan_once]'s dispatch on the next character: the token
    at the head of [s] and its length. *)
Definition next_token (s : string) : option (token * nat) :=
  match s with
  | EmptyString => None
  | String c rest =>
      match nat_of_ascii c with
      | 34 =>
          match scanstring rest with
          | Some (text, n) => Some (TString text, S n)
          | None => None
          end
      | 123 => Some (TLBrace, 1%nat)
      | 91 => Some (TLBracket, 1%nat)
      | 125 => Some (TRBrace, 1%nat)
      | 93 => Some (TRBracket, 1%nat)
      | 44 => Some (TComma, 1%nat)
      | 58 => Some (TColon, 1%nat)
      | _ =>
          if prefix "null" s then Some (TAtom VNone, 4%nat)
          else if prefix "true" s then Some (TAtom (VBool true), 4%nat)
          else if prefix "false" s then Some (TAtom (VBool false), 5%nat)
          else
            match match_number s with
            | Some (t, n) => Some (t, n)
            | None =>
                if prefix "NaN" s then Some (TAtom (VFloat nan), 3%nat)
                else if prefix "Infinity" s then Some (TAtom (VFloat infinity), 8%nat)
                else if prefix "-Infinity" s then
                  Some (TAtom (VFloat neg_infinity), 9%nat)
                else None
            end
      end
  end.

(** The tokens of [s]; [skip] characters at the head belong to the token
    just read.  Whitespace between tokens is dropped, and the list ends
    with [TInvalid] where no token can be read. *)
Fixpoint tokens_from (skip : nat) (s : string) : list token :=
  match s with
  | EmptyString => []
  | String c rest =>
      match skip with
      | S k => tokens_from k rest
      | O =>
          if is_whitespace c then tokens_from 0 rest
          else
            match next_token s with
            | Some (t, n) => t :: tokens_from (Nat.pred n) rest
            | None => [TInvalid]
            end
      end
  end.

(** The containers being read, innermost first.  An array is on the
    stack while it is open, an object while one of its values is read. *)
Inductive frame :=
| FArr (items : list value)
| FObj (members : dict) (key : string).

Inductive mode :=
| MValue
| MFirstItem
| MAfterItem
| MFirstKey
| MKey (members : dict)
| MColon (members : dict) (key : string)
| MAfterMember (members : dict)
| MDone (v : value).

(** A finished value goes to the innermost open container. *)
Definition deliver (v : value) (stack : list frame) : list frame * mode :=
  match stack with
  | [] => ([], MDone v)
  | FArr items :: st => (FArr (items ++ [v]) :: st, MAfterItem)
  | FObj members key :: st => (st, MAfterMember (dict_set members key v))
  end.

(** Where a value starts, every frame of the stack is an open container;
    one more cannot be opened when [max_depth] are open already. *)
Definition start_value (t : token) (stack : list frame)
  : list frame * mode + decode_error :=
  match t with
  | TAtom v => inl (deliver v stack)
  | TString s => inl (deliver (VStr s) stack)
  | TLongInt => inr IntegerTooLong
  | TLBracket =>
      if (max_depth lim <=? List.length stack)%nat then inr NestingTooDeep
      else inl (FArr [] :: stack, MFirstItem)
  | TLBrace =>
      if (max_depth lim <=? List.length stack)%nat then inr NestingTooDeep
      else inl (stack, MFirstKey)
  | _ => inr InvalidJSON
  end.

Definition step (st : list frame * mode) (t : token)
  : list frame * mode + decode_error :=
  let (stack, m) := st in
  match m, t with
  | MValue, _ => start_value t stack
  | MFirstItem, TRBracket =>
      match stack with
      | FArr items :: outer => inl (deliver (VList items) outer)
      | _ => inr InvalidJSON
      end
  | MFirstItem, _ => start_value t stack
  | MAfterItem, TComma => inl (stack, MValue)
  | MAfterItem, TRBracket =>
      match stack with
      | FArr items :: outer => inl (deliver (VList items) outer)
      | _ => inr InvalidJSON
      end
  | MFirstKey, TString k => inl (stack, MColon [] k)
  | MFirstKey, TRBrace => inl (deliver (VDict []) stack)
  | MKey members, TString k => inl (stack, MColon members k)
  | MColon members k, TColon => inl (FObj members k :: stack, MValue)
  | MAfterMember members, TComma => inl (stack, MKey members)
  | MAfterMember members, TRBrace => inl (deliver (VDict members) stack)
  | _, _ => inr InvalidJSON
  end.

Fixpoint run (st : list frame * mode) (ts : list token) : decoding :=
  match ts with
  | [] => match snd st with MDone v => Decoded v | _ => DecodeFails InvalidJSON end
  | t :: ts' =>
      match step st t with
      | inl st' => run st' ts'
      | inr e => DecodeFails e
      end
  end.

(** [json.loads(s)] for a [str]. *)
Definition loads (s : string) : decoding :=
  run ([], MValue) (tokens_from 0 s).

End Numbers.

End Json.

(** ** Exceptions and outcomes *)

(** The exception classes that can leave the client. *)
Inductive exn :=
| TelegramClientError (arg : value)
    (* class TelegramClientError(Exception), with its single argument *)
| LibraryError (name message : string)
    (* raised by the HTTP library while sending: httpx.ConnectError,
       httpx.ReadTimeout, ... with the library's message *)
| HTTPStatusError (status_code : Z)
    (* httpx.HTTPStatusError, from response.raise_for_status() *)
| JSONDecodeError
| TypeError
| AttributeError
| ValueError
| RecursionError
| UnicodeDecodeError.

(** The exception a failed decoding raises. *)
Definition raised (e : decode_error) : exn :=
  match e with
  | InvalidJSON => JSONDecodeError
  | IntegerTooLong => ValueError
  | NestingTooDeep => RecursionError
  | InvalidUnicode => UnicodeDecodeError
  end.

Inductive outcome (A : Type) : Type :=
| Return (a : A)
| Raise (e : exn).
Arguments Return {A} a.
Arguments Raise {A} e.

(** ** The HTTP library (httpx), as far as the client uses it *)
Module Httpx.

(** What [Client.request(method=, url=, params=, json=)] is given.  [None]
    for [params] or [json] means that the argument is not passed on. *)
Record Request := {
  method : string;
  url : string;
  params : option dict;
  json : option dict
}.

(** A response, as far as the client looks at it: its status, and what
    [response.json()] does with its body. *)
Record Response := {
  status_code : Z;
  json_result : decoding
}.

(** What comes back for a request: an exception of the library, or a
    response of the remote service. *)
Inductive reply :=
| Failed (name message : string)
| Responded (r : Response).

(** The connection resource.  [Client.close()] closes the transport
    unless the client is closed already (the library guards the call
    with the client's state); [is_closed] is the library's property of
    that name, [transport_closes] counts the releases of the transport. *)
Record Client := {
  timeout : float;
  is_closed : bool;
  transport_closes : nat
}.

Definition new (timeout : float) : Client :=
  {| timeout := timeout; is_closed := false; transport_closes := 0 |}.

Definition close (c : Client) : Client :=
  if is_closed c then c
  else {| timeout := timeout c; is_closed := true;
          transport_closes := S (transport_closes c) |}.

(** [Response.is_success]. *)
Definition is_success (r : Response) : bool :=
  (200 <=? status_code r)%Z && (status_code r <=? 299)%Z.

(** A request carries a body exactly when [json=] is given. *)
Definition has_body (r : Request) : bool :=
  match json r with Some _ => true | None => false end.

(** The query string is built from [params=]; nothing is put there
    without it, or with an empty mapping. *)
Definition query_keys (r : Request) : list string :=
  match params r with Some d => map fst d | None => [] end.

Definition body_keys (r : Request) : list string :=
  match json r with Some d => map fst d | None => [] end.

End Httpx.

(** ** Effects: the log of requests, and exceptions *)

Definition M (A : Type) : Type :=
  list Httpx.Request -> outcome A * list Httpx.Request.

Definition ret {A : Type} (a : A) : M A := fun log => (Return a, log).

Definition raise {A : Type} (e : exn) : M A := fun log => (Raise e, log).

Definition bind {A B : Type} (m : M A) (k : A -> M B) : M B :=
  fun log =>
    match m log with
    | (Return a, log') => k a log'
    | (Raise e, log') => (Raise e, log')
    end.

(** [try: m  except <caught>: handler]. *)
Definition try_except {A : Type} (m : M A) (caught : exn -> bool) (handler : M A)
  : M A :=
  fun log =>
    match m log with
    | (Raise e, log') => if caught e then handler log' else (Raise e, log')
    | r => r
    end.

Declare Scope py_scope.
Delimit Scope py_scope with py.
Notation "x <- m ;; k" := (bind m (fun x => k))
  (at level 61, m at next level, right associativity) : py_scope.
Notation "m ;; k" := (bind m (fun _ => k))
  (at level 61, right associativity) : py_scope.
Local Open Scope py_scope.

(** ** Strings *)

Fixpoint mem_ascii (c : ascii) (chars : string) : bool :=
  match chars with
  | EmptyString => false
  | String c' rest => Ascii.eqb c c' || mem_ascii c rest
  end.

(** [s.rstrip(chars)]: [s] without its longest tail made of [chars]. *)
Fixpoint rstrip (chars s : string) : string :=
  match s with
  | EmptyString => EmptyString
  | String c rest =>
      match rstrip chars rest with
      | EmptyString => if mem_ascii c chars then EmptyString else String c EmptyString
      | kept => String c kept
      end
  end.

(** [str(n)] for an [int]. *)
Definition str_int (n : Z) : string := NilZero.string_of_int (Z.to_int n).

(** [Union[int, str]]: chat, user and message identifiers. *)
Inductive ident :=
| IdInt (n : Z)
| IdStr (s : string).

Definition ident_value (i : ident) : value :=
  match i with IdInt n => VInt n | IdStr s => VStr s end.

(** An identifier inside an f-string. *)
Definition format_ident (i : ident) : string :=
  match i with IdInt n => str_int n | IdStr s => s end.

(** [Optional[...]] arguments as the values Python holds for them. *)
Definition opt_int (o : option Z) : value :=
  match o with Some n => VInt n | None => VNone end.
Definition opt_str (o : option string) : value :=
  match o with Some s => VStr s | None => VNone end.
Definition opt_ident (o : option ident) : value :=
  match o with Some i => ident_value i | None => VNone end.

(** ** The client *)

Record TelegramClient := {
  base_url : string;
  timeout : float;
  _client : Httpx.Client
}.

Definition default_base_url : string := "http://localhost:8080".
Definition default_timeout : float := 30%float.

Definition __init__ (base_url : string) (timeout : float) : TelegramClient :=
  {| base_url := rstrip "/" base_url;
     timeout := timeout;
     _client := Httpx.new timeout |}.

Definition close (self : TelegramClient) : TelegramClient :=
  {| base_url := base_url self;
     timeout := timeout self;
     _client := Httpx.close (_client self) |}.

Definition __enter__ (self : TelegramClient) : TelegramClient := self.

Definition __exit__ (self : TelegramClient) : TelegramClient := close self.

(** [with TelegramClient(...) as c: body(c)], the body leaving the client
    in some state. *)
Definition with_client (base_url : string) (timeout : float)
    (body : TelegramClient -> TelegramClient) : TelegramClient :=
  __exit__ (body (__enter__ (__init__ base_url timeout))).

Definition get_client (base_url : string) : TelegramClient :=
  __init__ base_url default_timeout.

Section Client.

(** The HTTP library together with the network and the remote service. *)
Variable transport : Httpx.Request -> Httpx.reply.

(** [json.loads] on a [str]. *)
Variable loads : string -> decoding.

(** [self._client.request(...)]: the request is handed over, and either
    the library raises or a response comes back. *)
Definition client_request (r : Httpx.Request) : M Httpx.Response :=
  fun log =>
    match transport r with
    | Httpx.Failed name message => (Raise (LibraryError name message), (log ++ [r])%list)
    | Httpx.Responded resp => (Return resp, (log ++ [r])%list)
    end.

(** [self._client.get(url)]. *)
Definition client_get (url : string) : M Httpx.Response :=
  client_request {| Httpx.method := "GET"; Httpx.url := url;
                    Httpx.params := None; Httpx.json := None |}.

Definition raise_for_status (r : Httpx.Response) : M unit :=
  if Httpx.is_success r then ret tt
  else raise (HTTPStatusError (Httpx.status_code r)).

(** [response.json()]. *)
Definition response_json (r : Httpx.Response) : M value :=
  match Httpx.json_result r with
  | Decoded v => ret v
  | DecodeFails e => raise (raised e)
  end.

(** [json.loads(data)]: a value that is not a [str] is a [TypeError]. *)
Definition json_loads (data : value) : M value :=
  match data with
  | VStr s =>
      match loads s with
      | Decoded v => ret v
      | DecodeFails e => raise (raised e)
      end
  | _ => raise TypeError
  end.

(** [result.get(key, default)]; only a [dict] has the method. *)
Definition get (result : value) (key : string) (default : value) : M value :=
  match result with
  | VDict d => ret (dict_get_default d key default)
  | _ => raise AttributeError
  end.

Definition _request (self : TelegramClient) (method endpoint : string)
    (params json_data : option dict) : M value :=
  let url := base_url self ++ endpoint in
  response <- client_request {| Httpx.method := method; Httpx.url := url;
                                Httpx.params := params;
                                Httpx.json := json_data |} ;;
  raise_for_status response ;;
  result <- response_json response ;;
  success <- get result "success" VNone ;;
  if negb (truthy success) then
    message <- get result "error" (VStr "Unknown error") ;;
    raise (TelegramClientError message)
  else
    data <- get result "data" VNone ;;
    if truthy data then
      try_except (json_loads data)
        (fun e => match e with JSONDecodeError | TypeError => true | _ => false end)
        (ret data)
    else ret data.

Definition _get (self : TelegramClient) (endpoint : string) (params : dict)
  : M value :=
  _request self "GET" endpoint (Some params) None.

Definition _post (self : TelegramClient) (endpoint : string) (data : dict)
  : M value :=
  _request self "POST" endpoint None (Some data).

Definition _put (self : TelegramClient) (endpoint : string) (data : dict)
  : M value :=
  _request self "PUT" endpoint None (Some data).

Definition _delete (self : TelegramClient) (endpoint : string) (data : dict)
  : M value :=
  if truthy (VDict data) then _request self "DELETE" endpoint None (Some data)
  else _request self "DELETE" endpoint None None.

Definition health_check (self : TelegramClient) : M value :=
  response <- client_get (base_url self ++ "/health") ;;
  raise_for_status response ;;
  response_json response.

(** *** Chat operations *)

Definition get_chats (self : TelegramClient) (page page_size : Z) : M value :=
  _get self "/chats" [("page", VInt page); ("page_size", VInt page_size)].

Definition list_chats (self : TelegramClient) (limit : Z)
    (chat_type : option string) (archived unread_only : bool) : M value :=
  let params := [("limit", VInt limit); ("archived", VBool archived);
                 ("unread_only", VBool unread_only)] in
  let params :=
    if truthy (opt_str chat_type)
    then dict_set params "chat_type" (opt_str chat_type) else params in
  _get self "/chats/list" params.

Definition get_chat (self : TelegramClient) (chat_id : ident) : M value :=
  _get self ("/chats/" ++ format_ident chat_id) [].

(** *** Message operations *)

Definition get_messages (self : TelegramClient) (chat_id : ident)
    (page page_size : Z) : M value :=
  _get self ("/chats/" ++ format_ident chat_id ++ "/messages")
       [("page", VInt page); ("page_size", VInt page_size)].

Definition send_message (self : TelegramClient) (chat_id : ident)
    (message : string) (reply_to : option Z) (parse_mode : option string)
  : M value :=
  let data := [("chat_id", ident_value chat_id); ("message", VStr message)] in
  let data :=
    if truthy (opt_int reply_to)
    then dict_set data "reply_to" (opt_int reply_to) else data in
  let data :=
    if truthy (opt_str parse_mode)
    then dict_set data "parse_mode" (opt_str parse_mode) else data in
  _post self "/messages/send" data.

Definition edit_message (self : TelegramClient) (chat_id : ident)
    (message_id : Z) (new_text : string) : M value :=
  _put self "/messages/edit"
       [("chat_id", ident_value chat_id); ("message_id", VInt message_id);
        ("new_text", VStr new_text)].

Definition delete_message (self : TelegramClient) (chat_id : ident)
    (message_id : Z) (revoke : bool) : M value :=
  _delete self "/messages/delete"
          [("chat_id", ident_value chat_id); ("message_id", VInt message_id);
           ("revoke", VBool revoke)].

Definition forward_message (self : TelegramClient) (from_chat_id to_chat_id : ident)
    (message_id : Z) : M value :=
  _post self "/messages/forward"
        [("from_chat_id", ident_value from_chat_id);
         ("to_chat_id", ident_value to_chat_id);
         ("message_id", VInt message_id)].

Definition search_messages (self : TelegramClient) (chat_id : ident)
    (query : string) (limit : Z) (from_user : option ident) : M value :=
  let data := [("chat_id", ident_value chat_id); ("query", VStr query);
               ("limit", VInt limit)] in
  let data :=
    if truthy (opt_ident from_user)
    then dict_set data "from_user" (opt_ident from_user) else data in
  _post self "/messages/search" data.

(** *** Contact operations *)

Definition list_contacts (self : TelegramClient) : M value :=
  _get self "/contacts" [].

Definition search_contacts (self : TelegramClient) (query : string) (limit : Z)
  : M value :=
  _get self "/contacts/search" [("query", VStr query); ("limit", VInt limit)].

Definition add_contact (self : TelegramClient) (phone first_name : string)
    (last_name : option string) : M value :=
  let data := [("phone", VStr phone); ("first_name", VStr first_name)] in
  let data :=
    if truthy (opt_str last_name)
    then dict_set data "last_name" (opt_str last_name) else data in
  _post self "/contacts" data.

Definition delete_contact (self : TelegramClient) (user_id : ident) : M value :=
  _delete self ("/contacts/" ++ format_ident user_id) [].

(** *** User operations *)

Definition get_me (self : TelegramClient) : M value :=
  _get self "/me" [].

Definition get_user_status (self : TelegramClient) (user_id : ident) : M value :=
  _get self ("/users/" ++ format_ident user_id ++ "/status") [].

Definition resolve_username (self : TelegramClient) (username : string) : M value :=
  _get self ("/resolve/" ++ username) [].

(** *** Group operations *)

Definition create_group (self : TelegramClient) (title : string)
    (users : list ident) : M value :=
  _post self "/groups"
        [("title", VStr title); ("users", VList (map ident_value users))].

Definition invite_to_group (self : TelegramClient) (chat_id : ident)
    (user_ids : list ident) : M value :=
  _post self "/groups/invite"
        [("chat_id", ident_value chat_id);
         ("user_ids", VList (map ident_value user_ids))].

Definition leave_chat (self : TelegramClient) (chat_id : ident) : M value :=
  _post self ("/chats/" ++ format_ident chat_id ++ "/leave") [].

Definition get_participants (self : TelegramClient) (chat_id : ident)
    (limit offset : Z) : M value :=
  _get self ("/chats/" ++ format_ident chat_id ++ "/participants")
       [("limit", VInt limit); ("offset", VInt offset)].

(** *** Admin operations *)

Definition get_admins (self : TelegramClient) (chat_id : ident) : M value :=
  _get self ("/chats/" ++ format_ident chat_id ++ "/admins") [].

Definition promote_admin (self : TelegramClient) (chat_id user_id : ident)
    (title : option string) : M value :=
  let data := [("chat_id", ident_value chat_id); ("user_id", ident_value user_id)] in
  let data :=
    if truthy (opt_str title)
    then dict_set data "title" (opt_str title) else data in
  _post self "/admin/promote" data.

Definition ban_user (self : TelegramClient) (chat_id user_id : ident)
    (until_date : option Z) : M value :=
  let data := [("chat_id", ident_value chat_id); ("user_id", ident_value user_id)] in
  let data :=
    if truthy (opt_int until_date)
    then dict_set data "until_date" (opt_int until_date) else data in
  _post self "/admin/ban" data.

Definition unban_user (self : TelegramClient) (chat_id user_id : ident) : M value :=
  _post self "/admin/unban"
        [("chat_id", ident_value chat_id); ("user_id", ident_value user_id)].

(** *** Channel operations *)

Definition get_invite_link (self : TelegramClient) (chat_id : ident) : M value :=
  _get self ("/chats/" ++ format_ident chat_id ++ "/invite-link") [].

(** *** Notification operations *)

Definition mute_chat (self : TelegramClient) (chat_id : ident)
    (mute_until : option Z) : M value :=
  let params := [] in
  let params :=
    if truthy (opt_int mute_until)
    then dict_set params "mute_until" (opt_int mute_until) else params in
  _post self ("/chats/" ++ format_ident chat_id ++ "/mute") params.

Definition unmute_chat (self : TelegramClient) (chat_id : ident) : M value :=
  _post self ("/chats/" ++ format_ident chat_id ++ "/unmute") [].

(** *** Archive operations *)

Definition archive_chat (self : TelegramClient) (chat_id : ident) : M value :=
  _post self ("/chats/" ++ format_ident chat_id ++ "/archive") [].

Definition unarchive_chat (self : TelegramClient) (chat_id : ident) : M value :=
  _post self ("/chats/" ++ format_ident chat_id ++ "/unarchive") [].

(** *** Draft operations *)

Definition save_draft (self : TelegramClient) (chat_id : ident)
    (message : string) (reply_to : option Z) : M value :=
  let data := [("chat_id", ident_value chat_id); ("message", VStr message)] in
  let data :=
    if truthy (opt_int reply_to)
    then dict_set data "reply_to" (opt_int reply_to) else data in
  _post self "/drafts/save" data.

Definition clear_draft (self : TelegramClient) (chat_id : ident) : M value :=
  _delete self ("/drafts/" ++ format_ident chat_id) [].

End Client.

(** ** The public operations as data

    A call of one of the methods built on [_request], with its arguments
    (a default argument is the caller's to fill in). *)
Inductive operation :=
| GetChats (page page_size : Z)
| ListChats (limit : Z) (chat_type : option string) (archived unread_only : bool)
| GetChat (chat_id : ident)
| GetMessages (chat_id : ident) (page page_size : Z)
| SendMessage (chat_id : ident) (message : string) (reply_to : option Z)
              (parse_mode : option string)
| EditMessage (chat_id : ident) (message_id : Z) (new_text : string)
| DeleteMessage (chat_id : ident) (message_id : Z) (revoke : bool)
| ForwardMessage (from_chat_id to_chat_id : ident) (message_id : Z)
| SearchMessages (chat_id : ident) (query : string) (limit : Z)
                 (from_user : option ident)
| ListContacts
| SearchContacts (query : string) (limit : Z)
| AddContact (phone first_name : string) (last_name : option string)
| DeleteContact (user_id : ident)
| GetMe
| GetUserStatus (user_id : ident)
| ResolveUsername (username : string)
| CreateGroup (title : string) (users : list ident)
| InviteToGroup (chat_id : ident) (user_ids : list ident)
| LeaveChat (chat_id : ident)
| GetParticipants (chat_id : ident) (limit offset : Z)
| GetAdmins (chat_id : ident)
| PromoteAdmin (chat_id user_id : ident) (title : option string)
| BanUser (chat_id user_id : ident) (until_date : option Z)
| UnbanUser (chat_id user_id : ident)
| GetInviteLink (chat_id : ident)
| MuteChat (chat_id : ident) (mute_until : option Z)
| UnmuteChat (chat_id : ident)
| ArchiveChat (chat_id : ident)
| UnarchiveChat (chat_id : ident)
| SaveDraft (chat_id : ident) (message : string) (reply_to : option Z)
| ClearDraft (chat_id : ident).

Section Invoke.
Variable transport : Httpx.Request -> Httpx.reply.
Variable loads : string -> decoding.

Definition invoke (self : TelegramClient) (op : operation) : M value :=
  let call {A : Type} (f : (Httpx.Request -> Httpx.reply) ->
                           (string -> decoding) -> TelegramClient -> A) : A :=
    f transport loads self in
  match op with
  | GetChats page page_size => call get_chats page page_size
  | ListChats limit chat_type archived unread_only =>
      call list_chats limit chat_type archived unread_only
  | GetChat chat_id => call get_chat chat_id
  | GetMessages chat_id page page_size => call get_messages chat_id page page_size
  | SendMessage chat_id message reply_to parse_mode =>
      call send_message chat_id message reply_to parse_mode
  | EditMessage chat_id message_id new_text =>
      call edit_message chat_id message_id new_text
  | DeleteMessage chat_id message_id revoke =>
      call delete_message chat_id message_id revoke
  | ForwardMessage from_chat_id to_chat_id message_id =>
      call forward_message from_chat_id to_chat_id message_id
  | SearchMessages chat_id query limit from_user =>
      call search_messages chat_id query limit from_user
  | ListContacts => call list_contacts
  | SearchContacts query limit => call search_contacts query limit
  | AddContact phone first_name last_name =>
      call add_contact phone first_name last_name
  | DeleteContact user_id => call delete_contact user_id
  | GetMe => call get_me
  | GetUserStatus user_id => call get_user_status user_id
  | ResolveUsername username => call resolve_username username
  | CreateGroup title users => call create_group title users
  | InviteToGroup chat_id user_ids => call invite_to_group chat_id user_ids
  | LeaveChat chat_id => call leave_chat chat_id
  | GetParticipants chat_id limit offset => call get_participants chat_id limit offset
  | GetAdmins chat_id => call get_admins chat_id
  | PromoteAdmin chat_id user_id title => call promote_admin chat_id user_id title
  | BanUser chat_id user_id until_date => call ban_user chat_id user_id until_date
  | UnbanUser chat_id user_id => call unban_user chat_id user_id
  | GetInviteLink chat_id => call get_invite_link chat_id
  | MuteChat chat_id mute_until => call mute_chat chat_id mute_until
  | UnmuteChat chat_id => call unmute_chat chat_id
  | ArchiveChat chat_id => call archive_chat chat_id
  | UnarchiveChat chat_id => call unarchive_chat chat_id
  | SaveDraft chat_id message reply_to => call save_draft chat_id message reply_to
  | ClearDraft chat_id => call clear_draft chat_id
  end.

End Invoke.

(** ** Every public operation *)

Inductive public_call :=
| HealthCheck
| Call (op : operation).

Definition perform (transport : Httpx.Request -> Httpx.reply)
    (loads : string -> decoding) (self : TelegramClient)
    (c : public_call) : M value :=
  match c with
  | HealthCheck => health_check transport self
  | Call op => invoke transport loads self op
  end.

(** ** The request path as a function of the reply

    [unwrap_reply] says in one expression what [_request] does with the
    reply to its request; [request_run] below proves that it is so. *)

Section Replies.
Variable loads : string -> decoding.

(** What step 5 of the request path makes of [data]: of the exceptions
    of the second decoding only [JSONDecodeError] is caught ([TypeError]
    is the case of a value that is not a string). *)
Definition unwrap_data (data : value) : outcome value :=
  if truthy data then
    match data with
    | VStr s =>
        match loads s with
        | Decoded v => Return v
        | DecodeFails InvalidJSON => Return data
        | DecodeFails e => Raise (raised e)
        end
    | _ => Return data
    end
  else Return data.

Definition unwrap_reply (reply : Httpx.reply) : outcome value :=
  match reply with
  | Httpx.Failed name message => Raise (LibraryError name message)
  | Httpx.Responded resp =>
      if Httpx.is_success resp then
        match Httpx.json_result resp with
        | DecodeFails e => Raise (raised e)
        | Decoded (VDict env) =>
            if truthy (dict_get env "success")
            then unwrap_data (dict_get env "data")
            else Raise (TelegramClientError
                          (dict_get_default env "error" (VStr "Unknown error")))
        | Decoded _ => Raise AttributeError
        end
      else Raise (HTTPStatusError (Httpx.status_code resp))
  end.

End Replies.

Definition request_of (self : TelegramClient) (method endpoint : string)
    (params json_data : option dict) : Httpx.Request :=
  {| Httpx.method := method; Httpx.url := base_url self ++ endpoint;
     Httpx.params := params; Httpx.json := json_data |}.

(** The mapping a request carries, in its body or else in its query. *)
Definition payload (r : Httpx.Request) : dict :=
  match Httpx.json r, Httpx.params r with
  | Some d, _ => d
  | None, Some d => d
  | None, None => []
  end.

(** ** The endpoint catalogue of the specification

    One entry per row of the catalogue: verb, path (identifiers filled
    in), the parameters that are always sent, and the parameters marked
    optional, each with the value the caller holds for it ([VNone] when
    it was left out). *)
Record entry := Entry {
  verb : string;
  path : string;
  required : dict;
  optional : dict
}.

Definition catalog (op : operation) : entry :=
  let id := format_ident in
  let idv := ident_value in
  match op with
  | GetChats page page_size =>
      Entry "GET" "/chats" [("page", VInt page); ("page_size", VInt page_size)] []
  | ListChats limit chat_type archived unread_only =>
      Entry "GET" "/chats/list"
            [("limit", VInt limit); ("archived", VBool archived);
             ("unread_only", VBool unread_only)]
            [("chat_type", opt_str chat_type)]
  | GetChat chat_id => Entry "GET" ("/chats/" ++ id chat_id) [] []
  | GetMessages chat_id page page_size =>
      Entry "GET" ("/chats/" ++ id chat_id ++ "/messages")
            [("page", VInt page); ("page_size", VInt page_size)] []
  | SendMessage chat_id message reply_to parse_mode =>
      Entry "POST" "/messages/send"
            [("chat_id", idv chat_id); ("message", VStr message)]
            [("reply_to", opt_int reply_to); ("parse_mode", opt_str parse_mode)]
  | EditMessage chat_id message_id new_text =>
      Entry "PUT" "/messages/edit"
            [("chat_id", idv chat_id); ("message_id", VInt message_id);
             ("new_text", VStr new_text)] []
  | DeleteMessage chat_id message_id revoke =>
      Entry "DELETE" "/messages/delete"
            [("chat_id", idv chat_id); ("message_id", VInt message_id);
             ("revoke", VBool revoke)] []
  | ForwardMessage from_chat_id to_chat_id message_id =>
      Entry "POST" "/messages/forward"
            [("from_chat_id", idv from_chat_id); ("to_chat_id", idv to_chat_id);
             ("message_id", VInt message_id)] []
  | SearchMessages chat_id query limit from_user =>
      Entry "POST" "/messages/search"
            [("chat_id", idv chat_id); ("query", VStr query); ("limit", VInt limit)]
            [("from_user", opt_ident from_user)]
  | ListContacts => Entry "GET" "/contacts" [] []
  | SearchContacts query limit =>
      Entry "GET" "/contacts/search" [("query", VStr query); ("limit", VInt limit)] []
  | AddContact phone first_name last_name =>
      Entry "POST" "/contacts"
            [("phone", VStr phone); ("first_name", VStr first_name)]
            [("last_name", opt_str last_name)]
  | DeleteContact user_id => Entry "DELETE" ("/contacts/" ++ id user_id) [] []
  | GetMe => Entry "GET" "/me" [] []
  | GetUserStatus user_id => Entry "GET" ("/users/" ++ id user_id ++ "/status") [] []
  | ResolveUsername username => Entry "GET" ("/resolve/" ++ username) [] []
  | CreateGroup title users =>
      Entry "POST" "/groups"
            [("title", VStr title); ("users", VList (map idv users))] []
  | InviteToGroup chat_id user_ids =>
      Entry "POST" "/groups/invite"
            [("chat_id", idv chat_id); ("user_ids", VList (map idv user_ids))] []
  | LeaveChat chat_id => Entry "POST" ("/chats/" ++ id chat_id ++ "/leave") [] []
  | GetParticipants chat_id limit offset =>
      Entry "GET" ("/chats/" ++ id chat_id ++ "/participants")
            [("limit", VInt limit); ("offset", VInt offset)] []
  | GetAdmins chat_id => Entry "GET" ("/chats/" ++ id chat_id ++ "/admins") [] []
  | PromoteAdmin chat_id user_id title =>
      Entry "POST" "/admin/promote"
            [("chat_id", idv chat_id); ("user_id", idv user_id)]
            [("title", opt_str title)]
  | BanUser chat_id user_id until_date =>
      Entry "POST" "/admin/ban"
            [("chat_id", idv chat_id); ("user_id", idv user_id)]
            [("until_date", opt_int until_date)]
  | UnbanUser chat_id user_id =>
      Entry "POST" "/admin/unban"
            [("chat_id", idv chat_id); ("user_id", idv user_id)] []
  | GetInviteLink chat_id =>
      Entry "GET" ("/chats/" ++ id chat_id ++ "/invite-link") [] []
  | MuteChat chat_id mute_until =>
      Entry "POST" ("/chats/" ++ id chat_id ++ "/mute") []
            [("mute_until", opt_int mute_until)]
  | UnmuteChat chat_id => Entry "POST" ("/chats/" ++ id chat_id ++ "/unmute") [] []
  | ArchiveChat chat_id => Entry "POST" ("/chats/" ++ id chat_id ++ "/archive") [] []
  | UnarchiveChat chat_id =>
      Entry "POST" ("/chats/" ++ id chat_id ++ "/unarchive") [] []
  | SaveDraft chat_id message reply_to =>
      Entry "POST" "/drafts/save"
            [("chat_id", idv chat_id); ("message", VStr message)]
            [("reply_to", opt_int reply_to)]
  | ClearDraft chat_id => Entry "DELETE" ("/drafts/" ++ id chat_id) [] []
  end.

(** The parameters that go out: the required ones, then the optional ones
    whose value is truthy. *)
Definition arguments (op : operation) : dict :=
  (required (catalog op)
   ++ filter (fun kv => truthy (snd kv)) (optional (catalog op)))%list.

(** The request the catalogue describes: a GET carries its parameters as
    the query, the other verbs as the JSON body, a DELETE without
    parameters carries neither. *)
Definition catalog_request (self : TelegramClient) (op : operation)
  : Httpx.Request :=
  let e := catalog op in
  let args := arguments op in
  if String.eqb (verb e) "GET" then
    request_of self "GET" (path e) (Some args) None
  else if String.eqb (verb e) "DELETE" then
    request_of self "DELETE" (path e) None
               (match args with [] => None | _ :: _ => Some args end)
  else request_of self (verb e) (path e) None (Some args).

Definition health_request (self : TelegramClient) : Httpx.Request :=
  request_of self "GET" "/health" None None.

Definition call_request (self : TelegramClient) (c : public_call)
  : Httpx.Request :=
  match c with
  | HealthCheck => health_request self
  | Call op => catalog_request self op
  end.

(** The kinds of operation the specification names, each with its verb,
    and the kind of every operation, read off the method's docstring:
    Get, List, Search, Resolve and Check read; Edit updates; Delete and
    Clear remove; everything else acts or creates. *)
Inductive kind := Read | Action | Update | Removal.

Definition verb_for (k : kind) : string :=
  match k with
  | Read => "GET"
  | Action => "POST"
  | Update => "PUT"
  | Removal => "DELETE"
  end.

Definition kind_of (c : public_call) : kind :=
  match c with
  | HealthCheck => Read
  | Call op =>
      match op with
      | GetChats _ _ | ListChats _ _ _ _ | GetChat _ | GetMessages _ _ _
      | SearchMessages _ _ _ _ | ListContacts | SearchContacts _ _ | GetMe
      | GetUserStatus _ | ResolveUsername _ | GetParticipants _ _ _
      | GetAdmins _ | GetInviteLink _ => Read
      | EditMessage _ _ _ => Update
      | DeleteMessage _ _ _ | DeleteContact _ | ClearDraft _ => Removal
      | _ => Action
      end
  end.

Definition is_search_messages (c : public_call) : bool :=
  match c with
  | Call (SearchMessages _ _ _ _) => true
  | _ => false
  end.

(** The keys of the parameters a call sends, path parameters apart. *)
Definition argument_keys (c : public_call) : list string :=
  match c with
  | HealthCheck => []
  | Call op => map fst (arguments op)
  end.

(** Key [key] is in the request's mapping exactly when [v], the value
    the caller holds for it, is truthy, and then it is sent as [v]. *)
Definition sent_iff_truthy (r : Httpx.Request) (key : string) (v : value)
  : Prop :=
  dict_lookup (payload r) key = if truthy v then Some v else None.

Fixpoint repeat_char (c : ascii) (n : nat) : string :=
  match n with
  | O => EmptyString
  | S k => String c (repeat_char c k)
  end.

(** ** Sample data for the examples *)
Module Sample.

Definition dq : string := String (ascii_of_nat 34) EmptyString.
Definition quoted (s : string) : string := dq ++ s ++ dq.

(** No sample holds a float literal, so the float constructor is never
    called on them. *)
Definition parse_float : string -> float := fun _ => nan.

(** The default digit limit, and room for a thousand open containers. *)
Definition limits : Json.limits :=
  {| Json.int_max_str_digits := 4300; Json.max_depth := 1000 |}.

Definition loads : string -> decoding := Json.loads limits parse_float.

Definition client : TelegramClient := get_client default_base_url.

(** A response with the body [body].  The sample bodies are ASCII text,
    and for such a body [response.json()] is [json.loads] of the text. *)
Definition reply_with (status : Z) (body : string)
  : Httpx.Request -> Httpx.reply :=
  fun _ => Httpx.Responded {| Httpx.status_code := status;
                              Httpx.json_result := loads body |}.


Definition connection_refused : Httpx.Request -> Httpx.reply :=
  fun _ => Httpx.Failed "ConnectError" "[Errno 111] Connection refused".

(** success false, error chat not found *)
Definition body_chat_not_found : string :=
  "{" ++ quoted "success" ++ ": false, " ++ quoted "error" ++ ": "
      ++ quoted "chat not found" ++ "}".

(** success false and nothing else *)
Definition body_failure_only : string :=
  "{" ++ quoted "success" ++ ": false}".

(** success true, data a string that is itself the JSON text of an
    object with a = 1 *)
Definition body_json_in_data : string :=
  "{" ++ quoted "success" ++ ": true, " ++ quoted "data" ++ ": "
      ++ dq ++ "{\" ++ dq ++ "a\" ++ dq ++ ":1}" ++ dq ++ "}".

(** success true, data the string plain text *)
Definition body_plain_text : string :=
  "{" ++ quoted "success" ++ ": true, " ++ quoted "data" ++ ": "
      ++ quoted "plain text" ++ "}".

(** status ok: a health body without the envelope keys *)
Definition body_status_ok : string :=
  "{" ++ quoted "status" ++ ": " ++ quoted "ok" ++ "}".

(** success the string false, data a list *)
Definition body_success_string : string :=
  "{" ++ quoted "success" ++ ": " ++ quoted "false" ++ ", "
      ++ quoted "data" ++ ": [1, 2]}".

(** success the number 0, with an error text *)
Definition body_success_zero : string :=
  "{" ++ quoted "success" ++ ": 0, " ++ quoted "error" ++ ": "
      ++ quoted "nope" ++ "}".

End Sample.

(** ** The example scripts

    A run of a script's [main()] is summed up by what it printed, what
    it handed to the HTTP library, the client it leaves behind and how it
    ended.  The builtins [int] (on a [str]) and [str] (on a value or an
    exception) are parameters, and so is the one point where Python
    versions differ (subscripting a dict with a slice). *)

(** The exceptions of a script: those of the client's module, raised
    there or by the script's own code, and [KeyError]. *)
Inductive script_exn :=
| Exn (e : exn)
| KeyError.

(** How [main()] ends. *)
Inductive termination :=
| Returned                      (* main() returned *)
| Exited (code : Z)             (* sys.exit(code) *)
| Uncaught (e : script_exn).    (* an exception left main() *)

Record run := {
  stdout : list string;            (* one entry per call of print *)
  requests : list Httpx.Request;
  client : option TelegramClient;  (* the script's client, once it is made *)
  ending : termination
}.

Definition double_quote : string := String (ascii_of_nat 34) EmptyString.
Definition newline : string := String (ascii_of_nat 10) EmptyString.

(** A continuation byte of UTF-8: 10xxxxxx. *)
Definition is_continuation (c : ascii) : bool :=
  (128 <=? nat_of_ascii c)%nat && (nat_of_ascii c <? 192)%nat.

(** The characters of a [str], each with its own bytes. *)
Fixpoint code_points (s : string) : list string :=
  match s with
  | EmptyString => []
  | String c rest =>
      match rest with
      | String d _ =>
          if is_continuation d then
            match code_points rest with
            | p :: ps => String c p :: ps
            | [] => [String c EmptyString]
            end
          else String c EmptyString :: code_points rest
      | EmptyString => [String c EmptyString]
      end
  end.

(** [len(v)]; [None] is the [TypeError] of a value without a length. *)
Definition py_len (v : value) : option nat :=
  match v with
  | VStr s => Some (List.length (code_points s))
  | VList items => Some (List.length items)
  | VDict d => Some (List.length d)
  | _ => None
  end.

(** What a for loop over [v] goes through; [None] is the [TypeError] of a
    value that is not iterable. *)
Definition py_iter (v : value) : option (list value) :=
  match v with
  | VStr s => Some (map VStr (code_points s))
  | VList items => Some items
  | VDict d => Some (map (fun kv => VStr (fst kv)) d)
  | _ => None
  end.

(** Effects of a script: its output and the log of requests, and
    exceptions. *)
Definition Script (A : Type) : Type :=
  list string * list Httpx.Request ->
  (A + script_exn) * (list string * list Httpx.Request).

Definition sret {A : Type} (a : A) : Script A := fun w => (inl a, w).

Definition throw {A : Type} (e : script_exn) : Script A := fun w => (inr e, w).

Definition sbind {A B : Type} (m : Script A) (k : A -> Script B) : Script B :=
  fun w =>
    match m w with
    | (inl a, w') => k a w'
    | (inr e, w') => (inr e, w')
    end.

Definition print (line : string) : Script unit :=
  fun w => (inl tt, ((fst w ++ [line])%list, snd w)).

(** The outcome of a method of the client, as the script sees it. *)
Definition as_script_result {A : Type} (o : outcome A) : A + script_exn :=
  match o with
  | Return a => inl a
  | Raise e => inr (Exn e)
  end.

(** A call of a method of the client. *)
Definition call {A : Type} (m : M A) : Script A :=
  fun w =>
    let '(o, log) := m (snd w) in (as_script_result o, (fst w, log)).

(** [for x in items: body(x)]. *)
Fixpoint for_each (items : list value) (body : value -> Script unit)
  : Script unit :=
  match items with
  | [] => sret tt
  | x :: rest => sbind (body x) (fun _ => for_each rest body)
  end.

(** A piece of script that hands nothing to the HTTP library. *)
Definition quiet {A : Type} (m : Script A) : Prop :=
  forall w, snd (snd (m w)) = snd w.

(** A piece of script that hands the requests [l] to the HTTP library,
    in this order, and stops after some of them when it fails. *)
Definition sends {A : Type} (l : list Httpx.Request) (m : Script A) : Prop :=
  forall w,
    match m w with
    | (inl _, w') => snd w' = (snd w ++ l)%list
    | (inr _, w') => exists k, snd w' = (snd w ++ firstn k l)%list
    end.

Declare Scope script_scope.
Delimit Scope script_scope with script.
Notation "x <- m ;; k" := (sbind m (fun x => k))
  (at level 61, m at next level, right associativity) : script_scope.
Notation "m ;; k" := (sbind m (fun _ => k))
  (at level 61, right associativity) : script_scope.

Section Scripts.
Variable transport : Httpx.Request -> Httpx.reply.
Variable loads : string -> decoding.

(** [int(s)] for a [str]; [None] is [ValueError]. *)
Variable py_int : string -> option Z.

(** [str(v)], which f-strings and [print] apply. *)
Variable py_str : value -> string.

(** [str(e)] for an exception other than [TelegramClientError]. *)
Variable exn_str : script_exn -> string.

(** Whether a slice can be hashed (it can from Python 3.12 on): what
    subscripting a dict with one raises depends on it. *)
Variable slices_hashable : bool.

Local Open Scope script_scope.

(** [try: chat_id = int(chat_id)  except ValueError: pass]. *)
Definition chat_id_of_arg (arg : string) : ident :=
  match py_int arg with
  | Some n => IdInt n
  | None => IdStr arg
  end.

(** [v.get(key, default)] in a script. *)
Definition sget (v : value) (key : string) (default : value) : Script value :=
  match v with
  | VDict d => sret (dict_get_default d key default)
  | _ => throw (Exn AttributeError)
  end.

(** [v[:n]]. *)
Definition slice_to (n : nat) (v : value) : Script value :=
  match v with
  | VStr s => sret (VStr (String.concat EmptyString (firstn n (code_points s))))
  | VList items => sret (VList (firstn n items))
  | VDict _ => throw (if slices_hashable then KeyError else Exn TypeError)
  | _ => throw (Exn TypeError)
  end.

Definition iterate (v : value) : Script (list value) :=
  match py_iter v with
  | Some items => sret items
  | None => throw (Exn TypeError)
  end.

Definition len (v : value) : Script nat :=
  match py_len v with
  | Some n => sret n
  | None => throw (Exn TypeError)
  end.

(** *** examples/send_message.py *)

Definition send_message_usage : list string :=
  [ "Usage: python send_message.py <chat_id> <message>";
    "  chat_id: Numeric ID or @username";
    "  message: The message to send";
    newline ++ "Example:";
    "  python send_message.py @username " ++ double_quote
      ++ "Hello from the script!" ++ double_quote ]%string.

(** The body of the try statement. *)
Definition send_message_body (client : TelegramClient) (chat_id : ident)
    (message : string) : Script unit :=
  result <- call (send_message transport loads client chat_id message None None) ;;
  print ("Success: " ++ py_str result)%string.

(** [main()], [argv] being [sys.argv]. *)
Definition send_message_main (argv : list string) : run :=
  if (List.length argv <? 3)%nat then
    {| stdout := send_message_usage; requests := []; client := None;
       ending := Exited 1 |}
  else
    let chat_id := chat_id_of_arg (nth 1 argv EmptyString) in
    let message := nth 2 argv EmptyString in
    let client := __init__ default_base_url default_timeout in
    let '(result, (out, log)) := send_message_body client chat_id message ([], []) in
    (* finally: client.close() *)
    let closed := Some (close client) in
    match result with
    | inl _ =>
        {| stdout := out; requests := log; client := closed; ending := Returned |}
    | inr (Exn (TelegramClientError arg)) =>
        {| stdout := (out ++ ["Error: " ++ py_str arg]%string)%list;
           requests := log; client := closed; ending := Exited 1 |}
    | inr e =>
        {| stdout := out; requests := log; client := closed;
           ending := Uncaught e |}
    end.

(** *** examples/search_messages.py *)

Definition search_messages_usage : list string :=
  [ "Usage: python search_messages.py <chat_id> <query>";
    newline ++ "Example:";
    "  python search_messages.py @channel_name " ++ double_quote
      ++ "important" ++ double_quote ]%string.

(** The body of the for loop. *)
Definition print_message (msg : value) : Script unit :=
  date <- sget msg "date" VNone ;;
  id <- sget msg "id" VNone ;;
  print ("[" ++ py_str date ++ "] ID: " ++ py_str id)%string ;;
  text <- sget msg "text" (VStr "(no text)") ;;
  shown <- slice_to 100 text ;;
  print ("  " ++ py_str shown)%string ;;
  print EmptyString.

(** The three lines the loop prints for a message that is a dict whose
    text is the string [text]. *)
Definition message_lines (d : dict) (text : string) : list string :=
  [ "[" ++ py_str (dict_get d "date") ++ "] ID: " ++ py_str (dict_get d "id");
    "  " ++ py_str (VStr (String.concat EmptyString
                            (firstn 100 (code_points text))));
    EmptyString ]%string.

(** A message the loop can print: a dict whose text, when it has one, is
    a string. *)
Definition text_of (msg : value) : option (dict * string) :=
  match msg with
  | VDict d =>
      match dict_get_default d "text" (VStr "(no text)") with
      | VStr text => Some (d, text)
      | _ => None
      end
  | _ => None
  end.

Definition lines_of (msg : value) : list string :=
  match text_of msg with
  | Some (d, text) => message_lines d text
  | None => []
  end.

(** The body of the try statement. *)
Definition search_messages_body (client : TelegramClient) (chat_id : ident)
    (query : string) : Script unit :=
  print ("Searching for '" ++ query ++ "' in chat " ++ format_ident chat_id
           ++ "...")%string ;;
  results <- call (search_messages transport loads client chat_id query 10 None) ;;
  if negb (truthy results) then
    print "No messages found."
  else
    n <- len results ;;
    print (newline ++ "Found " ++ str_int (Z.of_nat n) ++ " message(s):"
             ++ newline)%string ;;
    items <- iterate results ;;
    for_each items print_message.

Definition search_messages_main (argv : list string) : run :=
  if (List.length argv <? 3)%nat then
    {| stdout := search_messages_usage; requests := []; client := None;
       ending := Exited 1 |}
  else
    let chat_id := chat_id_of_arg (nth 1 argv EmptyString) in
    let query := nth 2 argv EmptyString in
    let client := __init__ default_base_url default_timeout in
    let '(result, (out, log)) := search_messages_body client chat_id query ([], []) in
    (* finally: client.close() *)
    let closed := Some (close client) in
    match result with
    | inl _ =>
        {| stdout := out; requests := log; client := closed; ending := Returned |}
    | inr (Exn (TelegramClientError arg)) =>
        {| stdout := (out ++ ["Error: " ++ py_str arg]%string)%list;
           requests := log; client := closed; ending := Exited 1 |}
    | inr e =>
        {| stdout := out; requests := log; client := closed;
           ending := Uncaught e |}
    end.

(** *** examples/example_usage.py *)

Definition print_chat (chat : value) : Script unit :=
  name <- sget chat "name" VNone ;;
  id <- sget chat "id" VNone ;;
  unread <- sget chat "unread_count" (VInt 0) ;;
  print ("  - " ++ py_str name ++ " (ID: " ++ py_str id ++ ", Unread: "
           ++ py_str unread ++ ")")%string.

Definition print_contact (contact : value) : Script unit :=
  name <- sget contact "name" VNone ;;
  username <- sget contact "username" (VStr "no username") ;;
  print ("  - " ++ py_str name ++ " (" ++ py_str username ++ ")")%string.

(** The body of the try statement. *)
Definition example_usage_body (client : TelegramClient) : Script unit :=
  health <- call (health_check transport client) ;;
  print ("API Health: " ++ py_str health)%string ;;
  print (newline ++ "--- Current User ---")%string ;;
  me <- call (get_me transport loads client) ;;
  print ("User: " ++ py_str me)%string ;;
  print (newline ++ "--- Recent Chats ---")%string ;;
  chats <- call (get_chats transport loads client 1 5) ;;
  print (py_str chats) ;;
  print (newline ++ "--- Chats with Metadata ---")%string ;;
  detailed_chats <- call (list_chats transport loads client 5 None false false) ;;
  chat_items <- iterate detailed_chats ;;
  for_each chat_items print_chat ;;
  print (newline ++ "--- Contacts ---")%string ;;
  contacts <- call (list_contacts transport loads client) ;;
  first_contacts <- slice_to 5 contacts ;;
  contact_items <- iterate first_contacts ;;
  for_each contact_items print_contact.

Definition example_usage_main : run :=
  let client := __init__ "http://localhost:8080" default_timeout in
  let '(result, (out, log)) := example_usage_body client ([], []) in
  let out :=
    match result with
    | inl _ => out
    | inr (Exn (TelegramClientError arg)) =>
        (out ++ ["Telegram API Error: " ++ py_str arg]%string)%list
    | inr e =>
        (out ++ ["Error: " ++ exn_str e;
                 newline ++ "Make sure the Telegram API is running:";
                 "  docker compose up telegram-api"]%string)%list
    end in
  (* finally: client.close() *)
  {| stdout := out; requests := log; client := Some (close client);
     ending := Returned |}.

End Scripts.

(** Stand-ins for the builtins in the sample runs: decimal digits with an
    optional minus sign for [int], and the text of a string or an integer
    for [str]. *)
Module ScriptSample.

Definition py_int (s : string) : option Z :=
  option_map Z.of_int (NilZero.int_of_string s).

Definition py_str (v : value) : string :=
  match v with
  | VStr s => s
  | VInt n => str_int n
  | VNone => "None"
  | VBool true => "True"
  | VBool false => "False"
  | _ => "?"
  end.

Definition exn_str (e : script_exn) : string := "?".

(** success true, data a list of two messages: the first with date, id
    and text, the second with an id only. *)
Definition body_two_messages : string :=
  let q := Sample.quoted in
  "{" ++ q "success" ++ ": true, " ++ q "data" ++ ": [{"
      ++ q "date" ++ ": " ++ q "2024-05-01" ++ ", " ++ q "id" ++ ": 7, "
      ++ q "text" ++ ": " ++ q "hello" ++ "}, {" ++ q "id" ++ ": 8}]}".

End ScriptSample.

(** ** Lemmas on the request path *)

Section RequestPath.
Variable transport : Httpx.Request -> Httpx.reply.
Variable loads : string -> decoding.

Ltac step_request :=
  unfold _request, bind, client_request, raise_for_status, response_json,
    get, json_loads, try_except, ret, raise, dict_get in *; cbn beta iota.

Lemma request_run (self : TelegramClient) (method endpoint : string)
    (params json_data : option dict) (log : list Httpx.Request) :
  _request transport loads self method endpoint params json_data log
  = (unwrap_reply loads
       (transport (request_of self method endpoint params json_data)),
     (log ++ [request_of self method endpoint params json_data])%list).
Proof.
  unfold unwrap_reply, unwrap_data, request_of. step_request.
  destruct (transport _) as [name message | resp]; [reflexivity |].
  destruct (Httpx.is_success resp); [| reflexivity].
  destruct (Httpx.json_result resp) as [result | e]; [| reflexivity].
  destruct result as [| b | n | x | s | items | env]; try reflexivity.
  destruct (truthy (dict_get_default env "success" VNone)); [| reflexivity].
  cbn [negb].
  destruct (dict_get_default env "data" VNone) as [| b | n | x | s | items | d];
    cbn [truthy]; try reflexivity.
  - destruct b; reflexivity.
  - destruct (negb (n =? 0)%Z); reflexivity.
  - destruct (negb (PrimFloat.eqb x 0)); reflexivity.
  - destruct s; [reflexivity |]. destruct (loads _) as [v | []]; reflexivity.
  - destruct items; reflexivity.
  - destruct d; reflexivity.
Qed.

Lemma health_check_run (self : TelegramClient) (log : list Httpx.Request) :
  health_check transport self log
  = (match transport (health_request self) with
     | Httpx.Failed name message => Raise (LibraryError name message)
     | Httpx.Responded resp =>
         if Httpx.is_success resp then
           match Httpx.json_result resp with
           | Decoded v => Return v
           | DecodeFails e => Raise (raised e)
           end
         else Raise (HTTPStatusError (Httpx.status_code resp))
     end,
     (log ++ [health_request self])%list).
Proof.
  unfold health_check, client_get, health_request, request_of. step_request.
  destruct (transport _) as [name message | resp]; [reflexivity |].
  destruct (Httpx.is_success resp); [| reflexivity].
  destruct (Httpx.json_result resp); reflexivity.
Qed.

Ltac unfold_operations :=
  unfold get_chats, list_chats, get_chat, get_messages, send_message,
    edit_message, delete_message, forward_message, search_messages,
    list_contacts, search_contacts, add_contact, delete_contact, get_me,
    get_user_status, resolve_username, create_group, invite_to_group,
    leave_chat, get_participants, get_admins, promote_admin, ban_user,
    unban_user, get_invite_link, mute_chat, unmute_chat, archive_chat,
    unarchive_chat, save_draft, clear_draft, _get, _post, _put, _delete.

(** Every operation builds the request of its catalogue entry and goes
    once through [_request]. *)
Lemma invoke_catalog (self : TelegramClient) (op : operation) :
  exists method endpoint params json_data,
    invoke transport loads self op
    = _request transport loads self method endpoint params json_data
    /\ catalog_request self op = request_of self method endpoint params json_data.
Proof.
  destruct op; cbn [invoke]; unfold_operations;
    unfold catalog_request, arguments; cbn [catalog verb path required optional];
    cbn [String.eqb Ascii.eqb Bool.eqb filter snd app];
    repeat match goal with
      | |- context [truthy (opt_int ?o)] => destruct o as [[| ? | ?] |]; cbn
      | |- context [truthy (opt_str ?o)] => destruct o as [[| ? ?] |]; cbn
      | |- context [truthy (opt_ident ?o)] =>
          destruct o as [[[| ? | ?] | [| ? ?]] |]; cbn
      end;
    do 4 eexists; split; reflexivity.
Qed.

Lemma invoke_run (self : TelegramClient) (op : operation)
    (log : list Httpx.Request) :
  invoke transport loads self op log
  = (unwrap_reply loads (transport (catalog_request self op)),
     (log ++ [catalog_request self op])%list).
Proof.
  destruct (invoke_catalog self op) as (m & e & p & j & -> & ->).
  apply request_run.
Qed.

Lemma invoke_sent (self : TelegramClient) (op : operation)
    (log : list Httpx.Request) (r : Httpx.Request) :
  snd (invoke transport loads self op log) = (log ++ [r])%list ->
  r = catalog_request self op
  /\ fst (invoke transport loads self op log) = unwrap_reply loads (transport r).
Proof.
  rewrite invoke_run. cbn [fst snd].
  intros H. apply app_inv_head in H. injection H as <-. split; reflexivity.
Qed.

End RequestPath.

(** ** The decoder on samples *)

Example loads_samples (parse_float : string -> float) :
  let loads := Json.loads Sample.limits parse_float in
  let q := Sample.quoted in
  loads ("{" ++ q "a" ++ ":1}") = Decoded (VDict [("a", VInt 1)])
  /\ loads "plain text" = DecodeFails InvalidJSON
  /\ loads " [1, -20, true, null, [], {}] "
     = Decoded (VList [VInt 1; VInt (-20); VBool true; VNone; VList []; VDict []])
  /\ loads ("{" ++ q "k" ++ ": 1, " ++ q "j" ++ ": 2, " ++ q "k" ++ ": 3}")
     = Decoded (VDict [("k", VInt 3); ("j", VInt 2)])
  /\ loads (q "tab\tA\u0042") = Decoded (VStr ("tab" ++ String (ascii_of_nat 9) "AB"))
  /\ loads "1.5e3" = Decoded (VFloat (parse_float "1.5e3"))
  /\ loads "[1,]" = DecodeFails InvalidJSON
  /\ loads "01" = DecodeFails InvalidJSON
  /\ loads "nulll" = DecodeFails InvalidJSON
  /\ loads (Sample.dq ++ "open") = DecodeFails InvalidJSON
  /\ loads "" = DecodeFails InvalidJSON.
Proof. cbv zeta. repeat split; reflexivity. Qed.

(** The limits of the interpreter: an integer literal of 4301 digits is
    refused where one of 4300 is converted, a float of any length is
    converted, and the 1001st open container is refused; what comes first
    in the text decides. *)
Example loads_limits (parse_float : string -> float) :
  let loads := Json.loads Sample.limits parse_float in
  loads (repeat_char "1" 4301) = DecodeFails IntegerTooLong
  /\ loads ("-" ++ repeat_char "1" 4301) = DecodeFails IntegerTooLong
  /\ loads (repeat_char "1" 4300)
     = Decoded (VInt (Json.int_of_digits (repeat_char "1" 4300)))
  /\ loads (repeat_char "1" 4301 ++ ".5")
     = Decoded (VFloat (parse_float (repeat_char "1" 4301 ++ ".5")))
  /\ loads (repeat_char "[" 1001 ++ repeat_char "]" 1001)
     = DecodeFails NestingTooDeep
  /\ (exists v, loads (repeat_char "[" 1000 ++ repeat_char "]" 1000) = Decoded v)
  /\ loads ("[" ++ repeat_char "1" 4301 ++ ", @]") = DecodeFails IntegerTooLong
  /\ loads ("[@, " ++ repeat_char "1" 4301 ++ "]") = DecodeFails InvalidJSON
  /\ loads ("[1 " ++ repeat_char "1" 4301 ++ "]") = DecodeFails InvalidJSON.
Proof.
  cbv zeta. repeat split; try (vm_compute; reflexivity).
  eexists. vm_compute. reflexivity.
Qed.

(** ** The envelope *)

(** C1: after a 2xx response whose body decodes to an envelope, an
    operation on the core request path raises [TelegramClientError] when
    [success] is false or absent; the exception's argument is the
    envelope's [error] field, or the string Unknown error when the field
    is absent.  The outcome is the exception: no data is returned. *)
Theorem envelope_failure_raises_client_error
    (transport : Httpx.Request -> Httpx.reply) (loads : string -> decoding)
    (self : TelegramClient) (op : operation) (log : list Httpx.Request)
    (r : Httpx.Request) (resp : Httpx.Response) (env : dict) :
  snd (invoke transport loads self op log) = (log ++ [r])%list ->
  transport r = Httpx.Responded resp ->
  Httpx.is_success resp = true ->
  Httpx.json_result resp = Decoded (VDict env) ->
  dict_lookup env "success" = Some (VBool false)
  \/ dict_lookup env "success" = None ->
  fst (invoke transport loads self op log)
  = Raise (TelegramClientError
             match dict_lookup env "error" with
             | Some message => message
             | None => VStr "Unknown error"
             end).
Proof.
  intros Hlog Hr Hok Hbody Hs.
  apply invoke_sent in Hlog as [_ ->].
  unfold unwrap_reply. rewrite Hr, Hok, Hbody.
  unfold dict_get, dict_get_default.
  destruct Hs as [-> | ->]; reflexivity.
Qed.

(** The envelope with success false and error chat not found. *)
Lemma chat_not_found_raises :
  fst (invoke (Sample.reply_with 200 Sample.body_chat_not_found) Sample.loads
              Sample.client
              (SendMessage (IdInt 123456789) "Hello!" None None) [])
  = Raise (TelegramClientError (VStr "chat not found")).
Proof.
  exact (envelope_failure_raises_client_error
           (Sample.reply_with 200 Sample.body_chat_not_found) Sample.loads
           Sample.client (SendMessage (IdInt 123456789) "Hello!" None None) []
           _ _ [("success", VBool false); ("error", VStr "chat not found")]
           eq_refl eq_refl eq_refl eq_refl (or_introl eq_refl)).
Defined.

(** The envelope with success false and no error key. *)
Example failure_without_error_key :
  fst (invoke (Sample.reply_with 200 Sample.body_failure_only) Sample.loads
              Sample.client (GetChat (IdStr "@somebody")) [])
  = Raise (TelegramClientError (VStr "Unknown error")).
Proof. reflexivity. Qed.

(** An envelope without a success key. *)
Example envelope_without_success_key :
  fst (invoke (Sample.reply_with 200 Sample.body_status_ok) Sample.loads
              Sample.client GetMe [])
  = Raise (TelegramClientError (VStr "Unknown error")).
Proof. reflexivity. Qed.




(** Data that is no JSON text comes back as the string it is. *)
Example plain_text_data_is_kept :
  fst (invoke (Sample.reply_with 200 Sample.body_plain_text) Sample.loads
              Sample.client (GetChats 1 20) [])
  = Return (VStr "plain text").
Proof. reflexivity. Qed.

(** The [json] decoder rejects the empty text, whatever the limits and
    whatever builds floats. *)
Lemma loads_empty (lim : Json.limits) (parse_float : string -> float) :
  Json.loads lim parse_float "" = DecodeFails InvalidJSON.
Proof. reflexivity. Qed.

(** The second decoding never ends in a [TelegramClientError]. *)
Lemma unwrap_data_not_client_error (loads : string -> decoding) (data arg : value) :
  unwrap_data loads data <> Raise (TelegramClientError arg).
Proof.
  unfold unwrap_data. destruct (truthy data); [| discriminate].
  destruct data; try discriminate.
  destruct (loads s) as [v | []]; discriminate.
Qed.

(** C8: the test on [success] is Python truthiness.  After a 2xx response
    whose body decodes to an envelope, [TelegramClientError] is raised
    exactly when the value of [success] is falsy (false, 0, the empty
    string, None, or no such key); for every truthy value, the number 1
    and the string false among them, the request path goes on to [data],
    and the outcome is what step 5 makes of it. *)
Theorem success_test_is_truthiness
    (transport : Httpx.Request -> Httpx.reply) (loads : string -> decoding)
    (self : TelegramClient) (op : operation) (log : list Httpx.Request)
    (r : Httpx.Request) (resp : Httpx.Response) (env : dict) :
  snd (invoke transport loads self op log) = (log ++ [r])%list ->
  transport r = Httpx.Responded resp ->
  Httpx.is_success resp = true ->
  Httpx.json_result resp = Decoded (VDict env) ->
  ((exists arg, fst (invoke transport loads self op log)
                = Raise (TelegramClientError arg))
   <-> truthy (dict_get env "success") = false)
  /\ (truthy (dict_get env "success") = true ->
      fst (invoke transport loads self op log)
      = unwrap_data loads (dict_get env "data"))
  /\ (dict_lookup env "success" = None -> truthy (dict_get env "success") = false)
  /\ truthy (VBool false) = false /\ truthy (VInt 0) = false
  /\ truthy (VStr "") = false /\ truthy VNone = false
  /\ truthy (VInt 1) = true /\ truthy (VStr "false") = true.
Proof.
  intros Hlog Hr Hok Hbody.
  apply invoke_sent in Hlog as [_ ->].
  unfold unwrap_reply. rewrite Hr, Hok, Hbody.
  repeat split; try reflexivity.
  - intros [arg H]. destruct (truthy (dict_get env "success"));
      [| reflexivity].
    now apply unwrap_data_not_client_error in H.
  - intros ->. eexists. reflexivity.
  - intros ->. reflexivity.
  - intros H. unfold dict_get, dict_get_default. rewrite H. reflexivity.
Qed.

(** The string false is truthy: the envelope counts as a success. *)
Lemma string_false_counts_as_success :
  fst (invoke (Sample.reply_with 200 Sample.body_success_string) Sample.loads
              Sample.client ListContacts [])
  = Return (VList [VInt 1; VInt 2]).
Proof.
  exact (proj1 (proj2 (success_test_is_truthiness
           (Sample.reply_with 200 Sample.body_success_string) Sample.loads
           Sample.client ListContacts [] _ _
           [("success", VStr "false"); ("data", VList [VInt 1; VInt 2])]
           eq_refl eq_refl eq_refl eq_refl)) eq_refl).
Defined.

(** The number 0 is falsy: the envelope counts as a failure. *)
Example zero_counts_as_failure :
  fst (invoke (Sample.reply_with 200 Sample.body_success_zero) Sample.loads
              Sample.client ListContacts [])
  = Raise (TelegramClientError (VStr "nope")).
Proof. reflexivity. Qed.

(** ** Failures below the envelope *)

(** A response is a success exactly when its status is 2xx. *)
Lemma is_success_2xx (r : Httpx.Response) :
  Httpx.is_success r = true
  <-> (200 <= Httpx.status_code r <= 299)%Z.
Proof.
  unfold Httpx.is_success. rewrite andb_true_iff, !Z.leb_le. reflexivity.
Qed.

(** A refused connection leaves the client as the library's exception. *)
Lemma connection_refused_is_not_a_client_error :
  fst (invoke Sample.connection_refused Sample.loads Sample.client GetMe [])
  = Raise (LibraryError "ConnectError" "[Errno 111] Connection refused")
  /\ ~ (exists arg,
          fst (invoke Sample.connection_refused Sample.loads Sample.client GetMe [])
          = Raise (TelegramClientError arg)).
Proof.
  split; [reflexivity |]. intros [arg H]. discriminate H.
Qed.

(** A 404 leaves the client as the library's status exception. *)
Example not_found_is_not_a_client_error :
  fst (invoke (Sample.reply_with 404 Sample.body_chat_not_found) Sample.loads
              Sample.client (GetChat (IdInt 7)) [])
  = Raise (HTTPStatusError 404).
Proof. reflexivity. Qed.

(** A 2xx body that is no JSON text, and one that is no object, leave
    the client as the decoder's and the attribute lookup's exceptions. *)
Example other_exceptions_escape :
  fst (invoke (Sample.reply_with 200 "<html>502</html>") Sample.loads
              Sample.client GetMe [])
  = Raise JSONDecodeError
  /\ fst (invoke (Sample.reply_with 200 "[1, 2]") Sample.loads
                 Sample.client GetMe [])
     = Raise AttributeError.
Proof. split; reflexivity. Qed.

(** C3, as the code has it: an exception of the HTTP library while
    sending, and the status exception for a response that is not 2xx,
    reach the caller as they are, not as [TelegramClientError]; the
    request path raises [TelegramClientError] only for a 2xx response with
    an envelope whose [success] is falsy, and the health check never raises
    it. *)
Theorem library_errors_propagate_unwrapped
    (transport : Httpx.Request -> Httpx.reply) (loads : string -> decoding)
    (self : TelegramClient) (c : public_call) (log : list Httpx.Request) :
  exists r,
    snd (perform transport loads self c log) = (log ++ [r])%list
    /\ (forall name message,
          transport r = Httpx.Failed name message ->
          fst (perform transport loads self c log)
          = Raise (LibraryError name message))
    /\ (forall resp,
          transport r = Httpx.Responded resp ->
          Httpx.is_success resp = false ->
          fst (perform transport loads self c log)
          = Raise (HTTPStatusError (Httpx.status_code resp)))
    /\ (forall arg,
          fst (perform transport loads self c log)
          = Raise (TelegramClientError arg) ->
          c <> HealthCheck
          /\ exists resp env,
               transport r = Httpx.Responded resp
               /\ Httpx.is_success resp = true
               /\ Httpx.json_result resp = Decoded (VDict env)
               /\ truthy (dict_get env "success") = false
               /\ arg = dict_get_default env "error" (VStr "Unknown error")).
Proof.
  destruct c as [| op]; cbn [perform].
  - exists (health_request self). rewrite health_check_run. cbn [fst snd].
    split; [reflexivity |]. repeat split.
    + intros name message ->. reflexivity.
    + intros resp -> ->. reflexivity.
    + exfalso. destruct (transport _) as [? ? | resp]; [discriminate |].
      destruct (Httpx.is_success resp); [| discriminate].
      destruct (Httpx.json_result resp) as [v | []]; discriminate.
    + exfalso. destruct (transport _) as [? ? | resp]; [discriminate |].
      destruct (Httpx.is_success resp); [| discriminate].
      destruct (Httpx.json_result resp) as [v | []]; discriminate.
  - exists (catalog_request self op). rewrite invoke_run. cbn [fst snd].
    split; [reflexivity |]. unfold unwrap_reply. repeat split.
    + intros name message ->. reflexivity.
    + intros resp -> ->. reflexivity.
    + discriminate.
    + destruct (transport _) as [? ? | resp]; [discriminate |].
      destruct (Httpx.is_success resp) eqn:Hok; [| discriminate].
      destruct (Httpx.json_result resp)
        as [[| b | n | x | s | items | env] | []] eqn:Hbody;
        try discriminate.
      destruct (truthy (dict_get env "success")) eqn:Hs;
        [now apply unwrap_data_not_client_error in H |].
      exists resp, env. injection H as <-. repeat split; assumption.
Qed.

(** ** The health check *)

(** C5: the health check issues one GET to the base address followed by
    /health, with no query and no body, and returns the decoded body of a
    2xx response as it is, whatever it holds: no test of [success], no
    look at [error], no second decoding of [data]. *)
Theorem health_check_returns_raw_body
    (transport : Httpx.Request -> Httpx.reply)
    (self : TelegramClient) (log : list Httpx.Request) :
  let request := {| Httpx.method := "GET";
                    Httpx.url := base_url self ++ "/health";
                    Httpx.params := None; Httpx.json := None |} in
  snd (health_check transport self log) = (log ++ [request])%list
  /\ (forall (resp : Httpx.Response) (body : value),
        transport request = Httpx.Responded resp ->
        Httpx.is_success resp = true ->
        Httpx.json_result resp = Decoded body ->
        fst (health_check transport self log) = Return body).
Proof.
  cbv zeta. rewrite health_check_run. cbn [fst snd]. split; [reflexivity |].
  intros resp body Hr Hok Hbody.
  unfold health_request, request_of. rewrite Hr, Hok, Hbody. reflexivity.
Qed.

(** A health body without the envelope keys comes back verbatim. *)
Lemma health_status_ok :
  fst (health_check (Sample.reply_with 200 Sample.body_status_ok)
                    Sample.client [])
  = Return (VDict [("status", VStr "ok")]).
Proof.
  exact (proj2 (health_check_returns_raw_body
                  (Sample.reply_with 200 Sample.body_status_ok)
                  Sample.client [])
               _ (VDict [("status", VStr "ok")]) eq_refl eq_refl eq_refl).
Defined.

(** A health body that looks like a failed envelope comes back verbatim
    too, and so does one whose data is JSON text. *)
Example health_ignores_the_envelope :
  fst (health_check (Sample.reply_with 200 Sample.body_chat_not_found)
                    Sample.client [])
  = Return (VDict [("success", VBool false); ("error", VStr "chat not found")])
  /\ fst (health_check (Sample.reply_with 200 Sample.body_json_in_data)
                       Sample.client [])
     = Return (VDict [("success", VBool true);
                      ("data", VStr ("{" ++ Sample.quoted "a" ++ ":1}"))]).
Proof. split; reflexivity. Qed.

(** ** Closing *)

Lemma httpx_close_idempotent (c : Httpx.Client) :
  Httpx.close (Httpx.close c) = Httpx.close c.
Proof.
  unfold Httpx.close. destruct (Httpx.is_closed c) eqn:H; cbn; now rewrite ?H.
Qed.

Lemma close_idempotent (self : TelegramClient) :
  close (close self) = close self.
Proof.
  unfold close. cbn. now rewrite httpx_close_idempotent.
Qed.

Lemma close_iter (self : TelegramClient) (n : nat) :
  Nat.iter (S n) close self = close self.
Proof.
  induction n as [| n IH]; [reflexivity |].
  change (Nat.iter (S (S n)) close self) with (close (Nat.iter (S n) close self)).
  rewrite IH. apply close_idempotent.
Qed.

(** C7: closing is idempotent.  [close] hands every call on to the close
    of its HTTP client and touches nothing else; however many times it is
    called, the client ends in the state one call leaves it in; the
    connection of a client that was open is released once, by the first
    call; a further call, the one made on leaving a with block after an
    explicit close included, changes nothing and releases nothing. *)
Theorem close_releases_once :
  (forall self : TelegramClient,
      _client (close self) = Httpx.close (_client self)
      /\ base_url (close self) = base_url self
      /\ timeout (close self) = timeout self)
  /\ (forall (self : TelegramClient) (n : nat),
        Nat.iter (S n) close self = close self)
  /\ (forall (base : string) (timeout : float) (n : nat),
        Httpx.transport_closes
          (_client (Nat.iter (S n) close (__init__ base timeout))) = 1%nat
        /\ Httpx.is_closed
             (_client (Nat.iter (S n) close (__init__ base timeout))) = true)
  /\ (forall self : TelegramClient,
        Httpx.is_closed (_client self) = false ->
        Httpx.transport_closes (_client (close self))
        = S (Httpx.transport_closes (_client self)))
  /\ (forall self : TelegramClient,
        Httpx.is_closed (_client self) = true -> close self = self)
  /\ (forall self : TelegramClient, __exit__ (close self) = close self)
  /\ (forall (base : string) (timeout : float),
        Httpx.transport_closes (_client (with_client base timeout close)) = 1%nat).
Proof.
  split; [intros self; repeat split |].
  split; [exact close_iter |].
  split; [intros base timeout n; rewrite close_iter; split; reflexivity |].
  split.
  { intros self H. unfold close, Httpx.close. cbn. rewrite H. reflexivity. }
  split.
  { intros self H. unfold close, Httpx.close. rewrite H.
    destruct self; reflexivity. }
  split; [intros self; apply close_idempotent |].
  reflexivity.
Qed.

(** ** The base address *)

Lemma mem_slash (c : ascii) : mem_ascii c "/" = Ascii.eqb c "/".
Proof. cbn. apply orb_false_r. Qed.

Lemma rstrip_cons (chars : string) (c : ascii) (s : string) :
  rstrip chars (String c s)
  = match rstrip chars s with
    | EmptyString => if mem_ascii c chars then EmptyString else String c EmptyString
    | kept => String c kept
    end.
Proof. reflexivity. Qed.

(** What [rstrip] keeps does not end with one of the characters. *)
Lemma rstrip_last (chars s p : string) (c : ascii) :
  rstrip chars s = p ++ String c "" -> mem_ascii c chars = false.
Proof.
  revert p. induction s as [| a s IH]; intros p H.
  - destruct p; discriminate H.
  - rewrite rstrip_cons in H.
    destruct (rstrip chars s) as [| b kept] eqn:Hk.
    + destruct (mem_ascii a chars) eqn:Ha.
      * destruct p; discriminate H.
      * destruct p as [| x p]; cbn in H.
        -- injection H as <-. exact Ha.
        -- injection H as _ H. destruct p; discriminate H.
    + destruct p as [| x p]; cbn in H.
      * discriminate H.
      * injection H as _ H. apply (IH p). exact H.
Qed.

(** What [rstrip "/"] drops is a run of slashes. *)
Lemma rstrip_slashes (s : string) :
  exists n, s = rstrip "/" s ++ repeat_char "/" n.
Proof.
  induction s as [| a s [n IH]].
  - exists 0%nat. reflexivity.
  - rewrite rstrip_cons. destruct (rstrip "/" s) as [| b kept] eqn:Hk.
    + rewrite mem_slash. destruct (Ascii.eqb a "/") eqn:Ha.
      * apply Ascii.eqb_eq in Ha. subst a. exists (S n). cbn in IH |- *.
        now rewrite <- IH.
      * exists n. cbn in IH |- *. now rewrite <- IH.
    + exists n. cbn. cbn in IH. now rewrite <- IH.
Qed.

Lemma catalog_path_shape (op : operation) :
  exists second rest,
    path (catalog op) = String "/" (String second rest) /\ second <> "/"%char.
Proof.
  destruct op; cbn; do 2 eexists; (split; [reflexivity | discriminate]).
Qed.

Lemma catalog_request_url (self : TelegramClient) (op : operation) :
  Httpx.url (catalog_request self op) = base_url self ++ path (catalog op).
Proof.
  unfold catalog_request.
  destruct (String.eqb (verb (catalog op)) "GET"); [reflexivity |].
  destruct (String.eqb (verb (catalog op)) "DELETE"); reflexivity.
Qed.

(** C9: the constructor stores the base address without its trailing
    slashes, every one of them, and nothing changes it afterwards; the
    URL of every request is the stored address followed by the endpoint,
    which begins with one slash, so that the two meet in a single slash. *)
Theorem url_is_stripped_base_then_endpoint
    (transport : Httpx.Request -> Httpx.reply) (loads : string -> decoding)
    (base : string) (timeout : float) (c : public_call)
    (log : list Httpx.Request) :
  exists r endpoint second rest,
    snd (perform transport loads (__init__ base timeout) c log)
    = (log ++ [r])%list
    /\ Httpx.url r = rstrip "/" base ++ endpoint
    /\ endpoint = String "/" (String second rest)
    /\ second <> "/"%char
    /\ (forall p, rstrip "/" base <> p ++ "/")
    /\ (exists n, base = rstrip "/" base ++ repeat_char "/" n).
Proof.
  assert (Hlast : forall p, rstrip "/" base <> p ++ "/").
  { intros p H. apply rstrip_last in H. discriminate H. }
  destruct c as [| op]; cbn [perform].
  - exists (health_request (__init__ base timeout)), "/health", "h"%char, "ealth".
    rewrite health_check_run. cbn [fst snd].
    repeat split; try assumption; try discriminate. apply rstrip_slashes.
  - destruct (catalog_path_shape op) as (second & rest & Hp & Hs).
    exists (catalog_request (__init__ base timeout) op),
      (path (catalog op)), second, rest.
    rewrite invoke_run. cbn [fst snd].
    repeat split; try assumption.
    + apply catalog_request_url.
    + apply rstrip_slashes.
Qed.

(** ** Request payloads *)

Lemma ident_value_not_none (i : ident) : ident_value i <> VNone.
Proof. destruct i; discriminate. Qed.

Ltac case_optionals :=
  repeat match goal with
    | |- context [truthy (opt_int ?o)] => destruct o as [[| ? | ?] |]; cbn
    | |- context [truthy (opt_str ?o)] => destruct o as [[| ? ?] |]; cbn
    | |- context [truthy (opt_ident ?o)] =>
        destruct o as [[[| ? | ?] | [| ? ?]] |]; cbn
    end.

(** A reply_to of 0 is given by the caller, and is not sent. *)
Lemma reply_to_zero_is_left_out :
  snd (invoke (Sample.reply_with 200 Sample.body_plain_text) Sample.loads
              Sample.client
              (SendMessage (IdInt 123456789) "Hello!" (Some 0%Z) None) [])
  = [{| Httpx.method := "POST";
        Httpx.url := "http://localhost:8080/messages/send";
        Httpx.params := None;
        Httpx.json := Some [("chat_id", VInt 123456789);
                            ("message", VStr "Hello!")] |}]
  /\ dict_has [("chat_id", VInt 123456789); ("message", VStr "Hello!")]
              "reply_to" = false.
Proof. split; reflexivity. Qed.

(** An empty parse_mode is given by the caller, and is not sent. *)
Example empty_parse_mode_is_left_out :
  snd (invoke (Sample.reply_with 200 Sample.body_plain_text) Sample.loads
              Sample.client
              (SendMessage (IdInt 123456789) "Hello!" (Some 77%Z) (Some "")) [])
  = [{| Httpx.method := "POST";
        Httpx.url := "http://localhost:8080/messages/send";
        Httpx.params := None;
        Httpx.json := Some [("chat_id", VInt 123456789);
                            ("message", VStr "Hello!");
                            ("reply_to", VInt 77)] |}].
Proof. reflexivity. Qed.

(** C4, as the code has it: for every optional parameter (reply_to and
    parse_mode of send message, last_name of add contact, title of promote
    admin, until_date of ban user, mute_until of mute chat, reply_to of
    save draft, from_user of search messages, chat_type of list chats) the
    key is in the outgoing mapping exactly when the caller's value is
    truthy, and it is then sent with that value; a parameter that was left
    out has no key at all, and no key of the mapping is sent as None. *)
Theorem optional_key_sent_iff_truthy
    (transport : Httpx.Request -> Httpx.reply) (loads : string -> decoding)
    (self : TelegramClient) (op : operation) (log : list Httpx.Request) :
  exists r,
    snd (invoke transport loads self op log) = (log ++ [r])%list
    /\ Forall (fun kv => sent_iff_truthy r (fst kv) (snd kv))
              (optional (catalog op))
    /\ Forall (fun kv => snd kv = VNone -> dict_has (payload r) (fst kv) = false)
              (optional (catalog op))
    /\ Forall (fun kv => snd kv <> VNone) (payload r).
Proof.
  exists (catalog_request self op). rewrite invoke_run. cbn [fst snd].
  split; [reflexivity |].
  unfold sent_iff_truthy, dict_has.
  destruct op; unfold catalog_request, arguments;
    cbn [catalog verb path required optional String.eqb Ascii.eqb Bool.eqb];
    cbn [filter snd fst app];
    case_optionals;
    (split; [| split]);
    repeat (constructor; cbn; try discriminate; try apply ident_value_not_none;
            try reflexivity).
Qed.

(** ** Verbs and the place of the parameters *)

(** Searching messages reads, and is sent by POST. *)
Lemma search_messages_is_a_read_sent_by_post :
  kind_of (Call (SearchMessages (IdStr "@channel_name") "important" 10 None)) = Read
  /\ verb_for Read = "GET"
  /\ snd (perform (Sample.reply_with 200 Sample.body_plain_text) Sample.loads
                  Sample.client
                  (Call (SearchMessages (IdStr "@channel_name") "important" 10 None))
                  [])
     = [{| Httpx.method := "POST";
           Httpx.url := "http://localhost:8080/messages/search";
           Httpx.params := None;
           Httpx.json := Some [("chat_id", VStr "@channel_name");
                               ("query", VStr "important");
                               ("limit", VInt 10)] |}].
Proof. repeat split; reflexivity. Qed.

(** Searching contacts, the same kind of operation, is sent by GET. *)
Example search_contacts_is_sent_by_get :
  snd (perform (Sample.reply_with 200 Sample.body_plain_text) Sample.loads
               Sample.client (Call (SearchContacts "important" 10)) [])
  = [{| Httpx.method := "GET";
        Httpx.url := "http://localhost:8080/contacts/search";
        Httpx.params := Some [("query", VStr "important"); ("limit", VInt 10)];
        Httpx.json := None |}].
Proof. reflexivity. Qed.

(** C6, as the code has it: every public operation sends the request of
    its catalogue entry; the verb is GET for a read, POST for a creation
    or an action, PUT for an update and DELETE for a removal, except that
    searching messages, a read, is sent by POST.  The verb alone decides
    where the parameters go: a GET has them all in the query and has no
    body; any other verb has nothing in the query and them all in the JSON
    body, and only a DELETE without parameters has no body. *)
Theorem verb_and_parameter_placement
    (transport : Httpx.Request -> Httpx.reply) (loads : string -> decoding)
    (self : TelegramClient) (c : public_call) (log : list Httpx.Request) :
  exists r,
    snd (perform transport loads self c log) = (log ++ [r])%list
    /\ r = call_request self c
    /\ Httpx.method r
       = (if is_search_messages c then "POST" else verb_for (kind_of c))
    /\ (Httpx.method r = "GET" ->
        Httpx.json r = None /\ Httpx.query_keys r = argument_keys c)
    /\ (Httpx.method r <> "GET" ->
        Httpx.params r = None
        /\ Httpx.body_keys r = argument_keys c
        /\ (Httpx.json r = None ->
            Httpx.method r = "DELETE" /\ argument_keys c = [])).
Proof.
  exists (call_request self c). split.
  - destruct c as [| op]; cbn [perform call_request].
    + now rewrite health_check_run.
    + now rewrite invoke_run.
  - split; [reflexivity |].
    destruct c as [| op].
    + cbn. repeat split; congruence.
    + unfold argument_keys, call_request.
      destruct op; unfold catalog_request, arguments;
        cbn [catalog verb path required optional String.eqb Ascii.eqb Bool.eqb];
        cbn [filter snd fst app];
        case_optionals; cbn;
        repeat split; intros; try reflexivity; try congruence.
Qed.

(** C10: a DELETE goes through the one helper [_delete], which sends a
    JSON body exactly when it is given at least one parameter.  Deleting
    a message sends its three parameters as the body; deleting a contact
    and clearing a draft send no body at all, not an empty object. *)
Theorem delete_sends_body_iff_parameters
    (transport : Httpx.Request -> Httpx.reply) (loads : string -> decoding)
    (self : TelegramClient) (log : list Httpx.Request) :
  (forall (endpoint : string) (data : dict),
      exists r,
        snd (_delete transport loads self endpoint data log) = (log ++ [r])%list
        /\ Httpx.method r = "DELETE"
        /\ Httpx.url r = base_url self ++ endpoint
        /\ Httpx.params r = None
        /\ Httpx.json r = match data with [] => None | _ :: _ => Some data end
        /\ (Httpx.has_body r = true <-> data <> []))
  /\ (forall op : operation,
        exists r,
          snd (invoke transport loads self op log) = (log ++ [r])%list
          /\ (Httpx.method r = "DELETE" ->
              Httpx.params r = None
              /\ Httpx.json r <> Some []
              /\ (Httpx.has_body r = true <-> arguments op <> [])))
  /\ (forall (chat_id : ident) (message_id : Z) (revoke : bool),
        invoke transport loads self (DeleteMessage chat_id message_id revoke)
        = _delete transport loads self "/messages/delete"
                  [("chat_id", ident_value chat_id);
                   ("message_id", VInt message_id); ("revoke", VBool revoke)])
  /\ (forall user_id : ident,
        invoke transport loads self (DeleteContact user_id)
        = _delete transport loads self ("/contacts/" ++ format_ident user_id) [])
  /\ (forall chat_id : ident,
        invoke transport loads self (ClearDraft chat_id)
        = _delete transport loads self ("/drafts/" ++ format_ident chat_id) [])
  /\ (forall (chat_id : ident) (message_id : Z) (revoke : bool),
        snd (invoke transport loads self
                    (DeleteMessage chat_id message_id revoke) log)
        = (log ++ [{| Httpx.method := "DELETE";
                      Httpx.url := base_url self ++ "/messages/delete";
                      Httpx.params := None;
                      Httpx.json := Some [("chat_id", ident_value chat_id);
                                          ("message_id", VInt message_id);
                                          ("revoke", VBool revoke)] |}])%list)
  /\ (forall user_id : ident,
        snd (invoke transport loads self (DeleteContact user_id) log)
        = (log ++ [{| Httpx.method := "DELETE";
                      Httpx.url := base_url self ++ "/contacts/"
                                     ++ format_ident user_id;
                      Httpx.params := None;
                      Httpx.json := None |}])%list)
  /\ (forall chat_id : ident,
        snd (invoke transport loads self (ClearDraft chat_id) log)
        = (log ++ [{| Httpx.method := "DELETE";
                      Httpx.url := base_url self ++ "/drafts/"
                                     ++ format_ident chat_id;
                      Httpx.params := None;
                      Httpx.json := None |}])%list).
Proof.
  split.
  { intros endpoint data. unfold _delete.
    destruct data as [| kv data]; cbn [truthy]; rewrite request_run;
      eexists; (split; [reflexivity |]); cbn;
      repeat split; try reflexivity; try congruence. }
  split.
  { intros op. exists (catalog_request self op). rewrite invoke_run.
    split; [reflexivity |].
    destruct op; unfold catalog_request, arguments;
      cbn [catalog verb path required optional String.eqb Ascii.eqb Bool.eqb];
      cbn [filter snd fst app];
      case_optionals; cbn;
      intros Hm; try discriminate Hm;
      repeat split; try reflexivity; try congruence. }
  do 3 (split; [reflexivity |]).
  repeat split; intros; rewrite invoke_run; reflexivity.
Qed.

(** ** One request per call *)


(** ** Bodies that are no envelope *)

(** For a 2xx response, an exception of [response.json()]
    ([JSONDecodeError] for a body that is no JSON text, and also
    [UnicodeDecodeError], [ValueError] and [RecursionError]) leaves every
    operation as it is, and a body that decodes to anything but a dict
    (a list, a string, a number, null) leaves it as the [AttributeError]
    of the lookup of success; in neither case is a [TelegramClientError]
    raised. *)
Theorem body_without_envelope_raises
    (transport : Httpx.Request -> Httpx.reply) (loads : string -> decoding)
    (self : TelegramClient) (op : operation) (log : list Httpx.Request)
    (r : Httpx.Request) (resp : Httpx.Response) :
  snd (invoke transport loads self op log) = (log ++ [r])%list ->
  transport r = Httpx.Responded resp ->
  Httpx.is_success resp = true ->
  (forall e,
      Httpx.json_result resp = DecodeFails e ->
      fst (invoke transport loads self op log) = Raise (raised e))
  /\ (forall v,
        Httpx.json_result resp = Decoded v ->
        (forall env, v <> VDict env) ->
        fst (invoke transport loads self op log) = Raise AttributeError)
  /\ ((forall env, Httpx.json_result resp <> Decoded (VDict env)) ->
      forall arg,
        fst (invoke transport loads self op log)
        <> Raise (TelegramClientError arg)).
Proof.
  intros Hlog Hr Hok. apply invoke_sent in Hlog as [_ ->].
  unfold unwrap_reply. rewrite Hr, Hok. split; [| split].
  - intros e ->. reflexivity.
  - intros v -> Hv. destruct v; try reflexivity.
    exfalso. eapply Hv. reflexivity.
  - intros Hne arg.
    destruct (Httpx.json_result resp) as [v | []]; try discriminate.
    destruct v; try discriminate. now contradiction (Hne items).
Qed.

Lemma list_body_raises_attribute_error :
  fst (invoke (Sample.reply_with 200 "[1, 2]") Sample.loads Sample.client
              (GetChats 1 20) [])
  = Raise AttributeError.
Proof.
  refine (proj1 (proj2 (body_without_envelope_raises
                   (Sample.reply_with 200 "[1, 2]") Sample.loads Sample.client
                   (GetChats 1 20) [] _ _ eq_refl eq_refl eq_refl))
                (VList [VInt 1; VInt 2]) eq_refl _).
  intros env H. discriminate H.
Defined.

(** ** Normalising the base address *)

Lemma rstrip_only_slashes (n : nat) : rstrip "/" (repeat_char "/" n) = "".
Proof.
  induction n as [| n IH]; [reflexivity |].
  cbn [repeat_char]. rewrite rstrip_cons, IH. reflexivity.
Qed.

Lemma rstrip_app_slashes (s : string) (n : nat) :
  rstrip "/" (s ++ repeat_char "/" n) = rstrip "/" s.
Proof.
  induction s as [| a s IH].
  - apply rstrip_only_slashes.
  - cbn [append]. rewrite !rstrip_cons, IH. reflexivity.
Qed.

Lemma rstrip_idempotent (s : string) : rstrip "/" (rstrip "/" s) = rstrip "/" s.
Proof.
  destruct (rstrip_slashes s) as [n H].
  rewrite H at 2. now rewrite rstrip_app_slashes.
Qed.

Lemma rstrip_keeps_other_tail (p : string) (c : ascii) :
  c <> "/"%char -> rstrip "/" (p ++ String c "") = p ++ String c "".
Proof.
  intros Hc. induction p as [| a p IH].
  - cbn. destruct (Ascii.eqb_spec c "/"); [contradiction | reflexivity].
  - cbn [append]. rewrite rstrip_cons, IH. destruct p; reflexivity.
Qed.

(** The constructor forgets how many slashes end the address it is
    given: an address and the same address with any number of slashes
    added make the same client, which sends the same requests; an address
    that is itself a stored base address is stored unchanged; an address
    made of slashes only is stored as the empty string; and an address
    that does not end with a slash is stored as it is, slashes inside it
    included. *)
Theorem base_url_normalised :
  (forall (base : string) (n : nat) (timeout : float),
      __init__ (base ++ repeat_char "/" n) timeout = __init__ base timeout)
  /\ (forall (base : string) (timeout : float),
        __init__ (base_url (__init__ base timeout)) timeout
        = __init__ base timeout)
  /\ (forall (n : nat) (timeout : float),
        base_url (__init__ (repeat_char "/" n) timeout) = "")
  /\ (forall (p : string) (c : ascii) (timeout : float),
        c <> "/"%char ->
        base_url (__init__ (p ++ String c "") timeout) = p ++ String c "").
Proof.
  unfold __init__. cbn [base_url]. repeat split.
  - intros. now rewrite rstrip_app_slashes.
  - intros. now rewrite rstrip_idempotent.
  - intros. apply rstrip_only_slashes.
  - intros. now apply rstrip_keeps_other_tail.
Qed.

(** ** Bodies of POST and PUT *)

(** A POST or a PUT always carries a JSON body, the empty object when the
    operation has no parameter to send: leaving a chat, unmuting,
    archiving and unarchiving it, and muting it without a truthy
    mute_until all send the empty object, where a DELETE without
    parameters sends no body. *)
Theorem post_and_put_always_send_a_body
    (transport : Httpx.Request -> Httpx.reply) (loads : string -> decoding)
    (self : TelegramClient) (log : list Httpx.Request) :
  (forall (endpoint : string) (data : dict),
      snd (_post transport loads self endpoint data log)
      = (log ++ [request_of self "POST" endpoint None (Some data)])%list
      /\ snd (_put transport loads self endpoint data log)
         = (log ++ [request_of self "PUT" endpoint None (Some data)])%list)
  /\ (forall op : operation,
        exists r,
          snd (invoke transport loads self op log) = (log ++ [r])%list
          /\ (Httpx.method r = "POST" \/ Httpx.method r = "PUT" ->
              Httpx.json r = Some (arguments op)))
  /\ (forall (chat_id : ident) (op : operation),
        In op [LeaveChat chat_id; UnmuteChat chat_id; ArchiveChat chat_id;
               UnarchiveChat chat_id; MuteChat chat_id None;
               MuteChat chat_id (Some 0%Z)] ->
        exists r,
          snd (invoke transport loads self op log) = (log ++ [r])%list
          /\ Httpx.method r = "POST"
          /\ Httpx.params r = None
          /\ Httpx.json r = Some []).
Proof.
  split.
  { intros endpoint data. unfold _post, _put. rewrite !request_run.
    split; reflexivity. }
  split.
  { intros op. exists (catalog_request self op). rewrite invoke_run.
    split; [reflexivity |].
    destruct op; unfold catalog_request, arguments;
      cbn [catalog verb path required optional String.eqb Ascii.eqb Bool.eqb];
      cbn [filter snd fst app];
      case_optionals; cbn;
      intros [Hm | Hm]; try discriminate Hm; reflexivity. }
  intros chat_id op Hin. exists (catalog_request self op). rewrite invoke_run.
  split; [reflexivity |].
  cbn [In] in Hin.
  repeat (destruct Hin as [<- | Hin]; [repeat split |]).
  contradiction.
Qed.

(** ** Identifiers in paths *)




(** A string identifier goes into the path as it is, with no escaping, so
    one that holds a slash reaches another endpoint: asking for the chat
    x/admins is asking for the admins of chat x, and asking for the chat
    x/invite-link is asking for the invite link of chat x. *)
Theorem path_identifier_is_verbatim
    (transport : Httpx.Request -> Httpx.reply) (loads : string -> decoding)
    (self : TelegramClient) :
  (forall (s : string) (log : list Httpx.Request),
      snd (invoke transport loads self (GetChat (IdStr s)) log)
      = (log ++ [{| Httpx.method := "GET";
                    Httpx.url := base_url self ++ "/chats/" ++ s;
                    Httpx.params := Some []; Httpx.json := None |}])%list
      /\ snd (invoke transport loads self (ResolveUsername s) log)
         = (log ++ [{| Httpx.method := "GET";
                       Httpx.url := base_url self ++ "/resolve/" ++ s;
                       Httpx.params := Some []; Httpx.json := None |}])%list)
  /\ (forall x : string,
        invoke transport loads self (GetChat (IdStr (x ++ "/admins")))
        = invoke transport loads self (GetAdmins (IdStr x))
        /\ invoke transport loads self (GetChat (IdStr (x ++ "/invite-link")))
           = invoke transport loads self (GetInviteLink (IdStr x))).
Proof.
  split.
  - intros s log. rewrite !invoke_run. split; reflexivity.
  - intros x. split; reflexivity.
Qed.


(** ** Required parameters *)

(** The parameters an operation always takes are always sent, each under
    its key and with the caller's value, falsy values included: a limit
    of 0, an empty message and the flags archived, unread_only and revoke
    when they are False go out like any other value, and the keys of the
    outgoing mapping are distinct. *)
Theorem required_parameters_always_sent
    (transport : Httpx.Request -> Httpx.reply) (loads : string -> decoding)
    (self : TelegramClient) (op : operation) (log : list Httpx.Request) :
  exists r,
    snd (invoke transport loads self op log) = (log ++ [r])%list
    /\ Forall (fun kv => dict_lookup (payload r) (fst kv) = Some (snd kv))
              (required (catalog op))
    /\ NoDup (map fst (payload r)).
Proof.
  exists (catalog_request self op). rewrite invoke_run. cbn [fst snd].
  split; [reflexivity |].
  destruct op; unfold catalog_request, arguments;
    cbn [catalog verb path required optional String.eqb Ascii.eqb Bool.eqb];
    cbn [filter snd fst app];
    case_optionals; cbn;
    (split;
     [ repeat (constructor; try reflexivity)
     | repeat (constructor; [cbn; intuition discriminate |]); constructor ]).
Qed.

(** Flags that are False and a limit of 0 are sent. *)
Example falsy_required_values_are_sent :
  snd (invoke (Sample.reply_with 200 Sample.body_plain_text) Sample.loads
              Sample.client (ListChats 0 None false false) [])
  = [{| Httpx.method := "GET";
        Httpx.url := "http://localhost:8080/chats/list";
        Httpx.params := Some [("limit", VInt 0); ("archived", VBool false);
                              ("unread_only", VBool false)];
        Httpx.json := None |}].
Proof. reflexivity. Qed.

(** ** The example scripts *)

Lemma call_invoke (transport : Httpx.Request -> Httpx.reply)
    (loads : string -> decoding) (self : TelegramClient) (op : operation)
    (w : list string * list Httpx.Request) :
  call (invoke transport loads self op) w
  = (as_script_result (fst (invoke transport loads self op (snd w))),
     (fst w, (snd w ++ [catalog_request self op])%list)).
Proof.
  unfold call. rewrite invoke_run. reflexivity.
Qed.

Lemma call_health_check (transport : Httpx.Request -> Httpx.reply)
    (self : TelegramClient)
    (w : list string * list Httpx.Request) :
  call (health_check transport self) w
  = (as_script_result (fst (health_check transport self (snd w))),
     (fst w, (snd w ++ [health_request self])%list)).
Proof.
  unfold call. rewrite health_check_run. reflexivity.
Qed.

Lemma length_lt_3 (argv : list string) :
  (3 <= List.length argv)%nat -> (List.length argv <? 3)%nat = false.
Proof. intros H. apply Nat.ltb_ge. exact H. Qed.

(** send_message.py, what it sends and leaves behind: with fewer than
    three arguments it prints the usage and exits with status 1 without
    making a client; otherwise it hands exactly one request to the HTTP
    library, a POST of chat_id and message to /messages/send on the
    default address, with no reply_to and no parse_mode, and whatever
    comes of it the client is closed, once. *)
Theorem send_message_script_sends_and_closes
    (transport : Httpx.Request -> Httpx.reply) (loads : string -> decoding)
    (py_int : string -> option Z) (py_str : value -> string)
    (argv : list string) :
  let r := send_message_main transport loads py_int py_str argv in
  ((List.length argv < 3)%nat ->
   stdout r = send_message_usage /\ requests r = [] /\ client r = None
   /\ ending r = Exited 1)
  /\ ((3 <= List.length argv)%nat ->
      requests r
      = [{| Httpx.method := "POST";
            Httpx.url := "http://localhost:8080/messages/send";
            Httpx.params := None;
            Httpx.json :=
              Some [("chat_id",
                     ident_value (chat_id_of_arg py_int (nth 1 argv "")));
                    ("message", VStr (nth 2 argv ""))] |}]
      /\ exists c,
           client r = Some c
           /\ Httpx.is_closed (_client c) = true
           /\ Httpx.transport_closes (_client c) = 1%nat).
Proof.
  cbv zeta. unfold send_message_main. split.
  - intros H. apply Nat.ltb_lt in H. rewrite H. repeat split.
  - intros H. rewrite (length_lt_3 _ H).
    unfold send_message_body, sbind.
    change (send_message transport loads ?c ?i ?m None None)
      with (invoke transport loads c (SendMessage i m None None)).
    rewrite call_invoke. cbn [fst snd].
    destruct (fst (invoke _ _ _ _ _)) as [result | e]; cbn.
    + split; [reflexivity |]. eexists. repeat split.
    + destruct e; (split; [reflexivity |]); eexists; repeat split.
Qed.

(** send_message.py, how it ends: when the operation returns, the script
    prints Success with the result and returns; when the operation raises
    [TelegramClientError] it prints Error with the message and exits with
    status 1; any other exception, a refused connection among them,
    leaves the script unprinted and uncaught. *)
Theorem send_message_script_ending
    (transport : Httpx.Request -> Httpx.reply) (loads : string -> decoding)
    (py_int : string -> option Z) (py_str : value -> string)
    (argv : list string) :
  (3 <= List.length argv)%nat ->
  let r := send_message_main transport loads py_int py_str argv in
  match fst (send_message transport loads
               (__init__ default_base_url default_timeout)
               (chat_id_of_arg py_int (nth 1 argv "")) (nth 2 argv "")
               None None []) with
  | Return result =>
      stdout r = ["Success: " ++ py_str result] /\ ending r = Returned
  | Raise (TelegramClientError arg) =>
      stdout r = ["Error: " ++ py_str arg] /\ ending r = Exited 1
  | Raise e => stdout r = [] /\ ending r = Uncaught (Exn e)
  end.
Proof.
  intros H. cbv zeta. unfold send_message_main. rewrite (length_lt_3 _ H).
  unfold send_message_body, sbind.
  change (send_message transport loads ?c ?i ?m None None)
    with (invoke transport loads c (SendMessage i m None None)).
  rewrite call_invoke. cbn [fst snd].
  destruct (fst (invoke _ _ _ _ _)) as [result | e]; cbn.
  - split; reflexivity.
  - destruct e; split; reflexivity.
Qed.

(** A run against a service that answers chat not found. *)
Lemma send_message_script_api_error :
  let r := send_message_main (Sample.reply_with 200 Sample.body_chat_not_found)
                             Sample.loads ScriptSample.py_int ScriptSample.py_str
                             ["send_message.py"; "123456789"; "Hello!"] in
  stdout r = ["Error: chat not found"] /\ ending r = Exited 1.
Proof.
  exact (send_message_script_ending
           (Sample.reply_with 200 Sample.body_chat_not_found)
           Sample.loads ScriptSample.py_int ScriptSample.py_str
           ["send_message.py"; "123456789"; "Hello!"] (le_n 3)).
Defined.

(** Three runs in full: a success with a user name, a refused connection,
    and too few arguments. *)
Example send_message_script_runs :
  send_message_main (Sample.reply_with 200 Sample.body_plain_text)
                    Sample.loads ScriptSample.py_int ScriptSample.py_str
                    ["send_message.py"; "@username"; "Hello!"]
  = {| stdout := ["Success: plain text"];
       requests := [{| Httpx.method := "POST";
                       Httpx.url := "http://localhost:8080/messages/send";
                       Httpx.params := None;
                       Httpx.json := Some [("chat_id", VStr "@username");
                                           ("message", VStr "Hello!")] |}];
       client := Some (close (__init__ default_base_url default_timeout));
       ending := Returned |}
  /\ send_message_main Sample.connection_refused
                       Sample.loads ScriptSample.py_int ScriptSample.py_str
                       ["send_message.py"; "-100123"; "Hello!"]
     = {| stdout := [];
          requests := [{| Httpx.method := "POST";
                          Httpx.url := "http://localhost:8080/messages/send";
                          Httpx.params := None;
                          Httpx.json := Some [("chat_id", VInt (-100123));
                                              ("message", VStr "Hello!")] |}];
          client := Some (close (__init__ default_base_url default_timeout));
          ending := Uncaught (Exn (LibraryError "ConnectError"
                                     "[Errno 111] Connection refused")) |}
  /\ send_message_main Sample.connection_refused
                       Sample.loads ScriptSample.py_int ScriptSample.py_str
                       ["send_message.py"; "@username"]
     = {| stdout := send_message_usage; requests := []; client := None;
          ending := Exited 1 |}.
Proof. repeat split; reflexivity. Qed.

(** *** Characters of a string *)

Lemma string_app_nil_r (s : string) : s ++ "" = s.
Proof. induction s as [| c s IH]; cbn; [reflexivity | now rewrite IH]. Qed.

Lemma string_app_assoc (a b c : string) : (a ++ b) ++ c = a ++ b ++ c.
Proof. induction a as [| x a IH]; cbn; [reflexivity | now rewrite IH]. Qed.

Lemma concat_empty_cons (x : string) (l : list string) :
  String.concat "" (x :: l) = x ++ String.concat "" l.
Proof.
  destruct l; cbn; [now rewrite string_app_nil_r | reflexivity].
Qed.

Lemma concat_empty_app (l1 l2 : list string) :
  String.concat "" (l1 ++ l2) = String.concat "" l1 ++ String.concat "" l2.
Proof.
  induction l1 as [| x l1 IH]; [reflexivity |].
  cbn [app]. rewrite !concat_empty_cons, IH. now rewrite string_app_assoc.
Qed.

(** The characters of a string, put together again, are the string. *)
Lemma code_points_concat (s : string) : String.concat "" (code_points s) = s.
Proof.
  induction s as [| c s IH]; [reflexivity |].
  cbn [code_points]. destruct s as [| d s]; [reflexivity |].
  destruct (is_continuation d).
  - destruct (code_points (String d s)) as [| p ps].
    + cbn in IH. discriminate IH.
    + rewrite concat_empty_cons in *. cbn. now rewrite IH.
  - rewrite concat_empty_cons, IH. reflexivity.
Qed.

Lemma code_points_nonempty (c : ascii) (s : string) :
  code_points (String c s) <> [].
Proof.
  cbn [code_points]. destruct s as [| d s]; [discriminate |].
  destruct (is_continuation d); [| discriminate].
  destruct (code_points (String d s)); discriminate.
Qed.

(** A slice of a string is the string when it is short enough, and a
    head of it otherwise. *)
Lemma slice_of_string (n : nat) (s : string) :
  (exists rest, s = String.concat "" (firstn n (code_points s)) ++ rest)
  /\ ((List.length (code_points s) <= n)%nat ->
      String.concat "" (firstn n (code_points s)) = s).
Proof.
  split.
  - exists (String.concat "" (skipn n (code_points s))).
    now rewrite <- concat_empty_app, firstn_skipn, code_points_concat.
  - intros H. now rewrite firstn_all2, code_points_concat.
Qed.

(** *** Loops and the log *)

Section ScriptLemmas.
Variable slices_hashable : bool.

Lemma quiet_sret {A : Type} (a : A) : quiet (sret a).
Proof. intros w. reflexivity. Qed.

Lemma quiet_throw {A : Type} (e : script_exn) : quiet (@throw A e).
Proof. intros w. reflexivity. Qed.

Lemma quiet_print (line : string) : quiet (print line).
Proof. intros w. reflexivity. Qed.

Lemma quiet_sbind {A B : Type} (m : Script A) (k : A -> Script B) :
  quiet m -> (forall a, quiet (k a)) -> quiet (sbind m k).
Proof.
  intros Hm Hk w. unfold sbind. specialize (Hm w).
  destruct (m w) as [[a | e] w']; cbn in *.
  - now rewrite Hk.
  - exact Hm.
Qed.

Lemma quiet_sget (v : value) (key : string) (default : value) :
  quiet (sget v key default).
Proof. destruct v; intros w; reflexivity. Qed.

Lemma quiet_slice_to (n : nat) (v : value) : quiet (slice_to slices_hashable n v).
Proof. destruct v; intros w; reflexivity. Qed.

Lemma quiet_iterate (v : value) : quiet (iterate v).
Proof. unfold iterate. destruct (py_iter v); intros w; reflexivity. Qed.

Lemma quiet_len (v : value) : quiet (len v).
Proof. unfold len. destruct (py_len v); intros w; reflexivity. Qed.

Lemma quiet_for_each (items : list value) (body : value -> Script unit) :
  (forall x, quiet (body x)) -> quiet (for_each items body).
Proof.
  intros Hb. induction items as [| x items IH]; cbn [for_each].
  - apply quiet_sret.
  - apply quiet_sbind; [apply Hb | intros _; exact IH].
Qed.

End ScriptLemmas.

Create HintDb quiet.
#[local] Hint Resolve quiet_sret quiet_throw quiet_print quiet_sget quiet_slice_to
  quiet_iterate quiet_len : quiet.

Ltac quiet_steps :=
  repeat first
    [ apply quiet_sbind; [| intros ?]
    | apply quiet_for_each; intros ?
    | solve [auto with quiet] ].

Lemma quiet_print_message (py_str : value -> string) (slices_hashable : bool)
    (msg : value) :
  quiet (print_message py_str slices_hashable msg).
Proof. unfold print_message. quiet_steps. Qed.

Lemma quiet_print_chat (py_str : value -> string) (chat : value) :
  quiet (print_chat py_str chat).
Proof. unfold print_chat. quiet_steps. Qed.

Lemma quiet_print_contact (py_str : value -> string) (contact : value) :
  quiet (print_contact py_str contact).
Proof. unfold print_contact. quiet_steps. Qed.

#[local] Hint Resolve quiet_print_message quiet_print_chat quiet_print_contact
  : quiet.

(** *** search_messages.py *)

Section SearchScript.
Variable transport : Httpx.Request -> Httpx.reply.
Variable loads : string -> decoding.
Variable py_int : string -> option Z.
Variable py_str : value -> string.
Variable slices_hashable : bool.

(** The try body up to the call, and what is left to do after it. *)
Lemma search_body_run (self : TelegramClient) (chat_id : ident) (query : string) :
  search_messages_body transport loads py_str slices_hashable self chat_id query
                       ([], [])
  = let searching := "Searching for '" ++ query ++ "' in chat "
                       ++ format_ident chat_id ++ "..." in
    let w := ([searching],
              [catalog_request self (SearchMessages chat_id query 10 None)]) in
    match fst (search_messages transport loads self chat_id query 10 None []) with
    | Return results =>
        (if negb (truthy results) then print "No messages found."
         else sbind (len results) (fun n =>
              sbind (print (newline ++ "Found " ++ str_int (Z.of_nat n)
                              ++ " message(s):" ++ newline))
                (fun _ => sbind (iterate results) (fun items =>
                   for_each items (print_message py_str slices_hashable))))) w
    | Raise e => (inr (Exn e), w)
    end.
Proof.
  unfold search_messages_body.
  change (search_messages transport loads ?c ?i ?q 10 None)
    with (invoke transport loads c (SearchMessages i q 10 None)).
  unfold sbind at 1 2. cbn [print fst snd app]. rewrite call_invoke.
  cbn [fst snd app].
  destruct (fst (invoke _ _ _ _ _)); reflexivity.
Qed.

Lemma search_main_run (argv : list string) :
  (3 <= List.length argv)%nat ->
  let r := search_messages_main transport loads py_int py_str slices_hashable
                                argv in
  let fresh := __init__ default_base_url default_timeout in
  let '(res, (out, log)) :=
    search_messages_body transport loads py_str slices_hashable fresh
      (chat_id_of_arg py_int (nth 1 argv "")) (nth 2 argv "") ([], []) in
  requests r = log
  /\ client r = Some (close fresh)
  /\ match res with
     | inl _ => stdout r = out /\ ending r = Returned
     | inr (Exn (TelegramClientError arg)) =>
         stdout r = (out ++ [("Error: " ++ py_str arg)%string])%list
         /\ ending r = Exited 1
     | inr e => stdout r = out /\ ending r = Uncaught e
     end.
Proof.
  intros H. cbv zeta. unfold search_messages_main. rewrite (length_lt_3 _ H).
  destruct (search_messages_body _ _ _ _ _ _ _ _) as [[u | e] [out log]].
  - repeat split.
  - destruct e as [[] |]; repeat split.
Qed.

(** The loop over messages that can all be printed. *)
Lemma for_each_printable (msgs : list value) (w : list string * list Httpx.Request) :
  Forall (fun msg => text_of msg <> None) msgs ->
  for_each msgs (print_message py_str slices_hashable) w
  = (inl tt, ((fst w ++ flat_map (lines_of py_str) msgs)%list, snd w)).
Proof.
  revert w. induction msgs as [| msg msgs IH]; intros [out log] H.
  - cbn. now rewrite app_nil_r.
  - inversion H as [| ? ? Hmsg Hrest]; subst.
    cbn [for_each flat_map].
    set (loop := for_each msgs (print_message py_str slices_hashable)) in *.
    unfold sbind at 1.
    unfold lines_of at 1. unfold text_of in Hmsg |- *.
    destruct msg as [| | | | | | d]; try (now contradiction Hmsg).
    unfold print_message, sbind, sget, print, slice_to, dict_get, sret.
    cbn [fst snd].
    destruct (dict_get_default d "text" (VStr "(no text)"));
      try (now contradiction Hmsg).
    cbn [fst snd]. rewrite (IH _ Hrest). cbn [fst snd message_lines].
    unfold dict_get. now rewrite <- !app_assoc.
Qed.

End SearchScript.

(** search_messages.py, what it sends and leaves behind: with fewer than
    three arguments it prints the usage and exits with status 1 without
    making a client; otherwise it hands exactly one request to the HTTP
    library, a POST of chat_id, query and the limit 10 to
    /messages/search on the default address, with no from_user, and
    whatever the result and whatever the loop over it does, the client is
    closed, once. *)
Theorem search_script_sends_and_closes
    (transport : Httpx.Request -> Httpx.reply) (loads : string -> decoding)
    (py_int : string -> option Z) (py_str : value -> string)
    (slices_hashable : bool) (argv : list string) :
  let r := search_messages_main transport loads py_int py_str slices_hashable
                                argv in
  ((List.length argv < 3)%nat ->
   stdout r = search_messages_usage /\ requests r = [] /\ client r = None
   /\ ending r = Exited 1)
  /\ ((3 <= List.length argv)%nat ->
      requests r
      = [{| Httpx.method := "POST";
            Httpx.url := "http://localhost:8080/messages/search";
            Httpx.params := None;
            Httpx.json :=
              Some [("chat_id",
                     ident_value (chat_id_of_arg py_int (nth 1 argv "")));
                    ("query", VStr (nth 2 argv ""));
                    ("limit", VInt 10)] |}]
      /\ exists c,
           client r = Some c
           /\ Httpx.is_closed (_client c) = true
           /\ Httpx.transport_closes (_client c) = 1%nat).
Proof.
  cbv zeta. split.
  - intros H. apply Nat.ltb_lt in H. unfold search_messages_main. rewrite H.
    repeat split.
  - intros H.
    pose proof (search_main_run transport loads py_int py_str slices_hashable
                                argv H) as Hrun.
    cbv zeta in Hrun.
    pose proof (search_body_run transport loads py_str slices_hashable
                  (__init__ default_base_url default_timeout)
                  (chat_id_of_arg py_int (nth 1 argv "")) (nth 2 argv ""))
      as Hbody.
    cbv zeta in Hbody.
    destruct (search_messages_body _ _ _ _ _ _ _ _) as [res [out log]].
    destruct Hrun as (-> & -> & _). split.
    + apply (f_equal (fun x => snd (snd x))) in Hbody. cbn [snd] in Hbody.
      rewrite Hbody.
      destruct (fst (search_messages _ _ _ _ _ _ _ _)) as [results | e];
        [| reflexivity].
      match goal with |- snd (snd (?m ?w)) = _ => assert (Hq : quiet m) end.
      { destruct (negb (truthy results)); quiet_steps. }
      rewrite Hq. reflexivity.
    + eexists. repeat split.
Qed.

Ltac search_run transport loads py_int py_str slices_hashable argv H :=
  let Hrun := fresh "Hrun" in
  let Hbody := fresh "Hbody" in
  pose proof (search_main_run transport loads py_int py_str slices_hashable
                              argv H) as Hrun;
  cbv zeta in Hrun;
  pose proof (search_body_run transport loads py_str slices_hashable
                (__init__ default_base_url default_timeout)
                (chat_id_of_arg py_int (nth 1 argv "")) (nth 2 argv ""))
    as Hbody;
  cbv zeta in Hbody.

(** search_messages.py, how it ends when there is nothing to list: a
    [TelegramClientError] is printed after Error and the script exits
    with status 1; any other exception of the call leaves the script
    uncaught; a falsy result (None, an empty list, an empty string) is
    reported as No messages found; and a truthy result that is not a list
    makes the script fail with a [TypeError] or an [AttributeError] that
    nothing catches. *)
Theorem search_script_ending
    (transport : Httpx.Request -> Httpx.reply) (loads : string -> decoding)
    (py_int : string -> option Z) (py_str : value -> string)
    (slices_hashable : bool) (argv : list string) :
  (3 <= List.length argv)%nat ->
  let r := search_messages_main transport loads py_int py_str slices_hashable
                                argv in
  let chat_id := chat_id_of_arg py_int (nth 1 argv "") in
  let query := nth 2 argv "" in
  let searching := "Searching for '" ++ query ++ "' in chat "
                     ++ format_ident chat_id ++ "..." in
  let result :=
    fst (search_messages transport loads
           (__init__ default_base_url default_timeout) chat_id query 10 None [])
  in
  (forall arg,
      result = Raise (TelegramClientError arg) ->
      stdout r = [searching; "Error: " ++ py_str arg] /\ ending r = Exited 1)
  /\ (forall e,
        result = Raise e ->
        (forall arg, e <> TelegramClientError arg) ->
        stdout r = [searching] /\ ending r = Uncaught (Exn e))
  /\ (forall results,
        result = Return results ->
        truthy results = false ->
        stdout r = [searching; "No messages found."] /\ ending r = Returned)
  /\ (forall results,
        result = Return results ->
        truthy results = true ->
        (forall items, results <> VList items) ->
        exists e,
          (e = TypeError \/ e = AttributeError)
          /\ ending r = Uncaught (Exn e)).
Proof.
  intros H. cbv zeta.
  search_run transport loads py_int py_str slices_hashable argv H.
  destruct (search_messages_body _ _ _ _ _ _ _ _) as [res [out log]].
  destruct Hrun as (_ & _ & Hrun).
  split; [intros arg Hres | split; [intros e Hres Hne | split;
    [intros results Hres Ht | intros results Hres Ht Hnl]]];
    rewrite Hres in Hbody.
  - injection Hbody as -> -> _. exact Hrun.
  - injection Hbody as -> -> _.
    destruct e; try exact Hrun. now contradiction (Hne arg).
  - rewrite Ht in Hbody. cbn in Hbody. injection Hbody as -> -> _.
    exact Hrun.
  - rewrite Ht in Hbody. cbn [negb] in Hbody.
    destruct results as [| b | n | x | s | items | d];
      try discriminate Ht; try (now contradiction (Hnl items)).
    + injection Hbody as -> -> _. exists TypeError. split; [now left | apply Hrun].
    + injection Hbody as -> -> _. exists TypeError. split; [now left | apply Hrun].
    + injection Hbody as -> -> _. exists TypeError. split; [now left | apply Hrun].
    + destruct s as [| c s]; [discriminate Ht |].
      unfold sbind, len, iterate, py_len, py_iter, sret, print in Hbody.
      cbn [fst snd] in Hbody.
      pose proof (code_points_nonempty c s) as Hne.
      destruct (code_points (String c s)) as [| p ps]; [now contradiction Hne |].
      cbn in Hbody. injection Hbody as -> -> _.
      exists AttributeError. split; [now right | apply Hrun].
    + destruct d as [| [k v] d]; [discriminate Ht |].
      cbn in Hbody. injection Hbody as -> -> _.
      exists AttributeError. split; [now right | apply Hrun].
Qed.

(** A search against a service that answers chat not found. *)
Lemma search_script_api_error :
  let r := search_messages_main
             (Sample.reply_with 200 Sample.body_chat_not_found) Sample.loads
             ScriptSample.py_int ScriptSample.py_str true
             ["search_messages.py"; "@channel_name"; "important"] in
  stdout r = ["Searching for 'important' in chat @channel_name...";
              "Error: chat not found"]
  /\ ending r = Exited 1.
Proof.
  exact (proj1 (search_script_ending
                  (Sample.reply_with 200 Sample.body_chat_not_found)
                  Sample.loads ScriptSample.py_int ScriptSample.py_str true
                  ["search_messages.py"; "@channel_name"; "important"]
                  (le_n 3))
               (VStr "chat not found") eq_refl).
Defined.

(** A search whose data is a plain string: the header counts its
    characters, and the loop fails on the first of them. *)
Example search_script_on_plain_text :
  search_messages_main (Sample.reply_with 200 Sample.body_plain_text)
                       Sample.loads ScriptSample.py_int ScriptSample.py_str true
                       ["search_messages.py"; "42"; "important"]
  = {| stdout := ["Searching for 'important' in chat 42...";
                  newline ++ "Found 10 message(s):" ++ newline];
       requests := [{| Httpx.method := "POST";
                       Httpx.url := "http://localhost:8080/messages/search";
                       Httpx.params := None;
                       Httpx.json := Some [("chat_id", VInt 42);
                                           ("query", VStr "important");
                                           ("limit", VInt 10)] |}];
       client := Some (close (__init__ default_base_url default_timeout));
       ending := Uncaught (Exn AttributeError) |}.
Proof. reflexivity. Qed.

(** search_messages.py on a list of messages: when the result is a
    non-empty list of dicts whose text, where there is one, is a string,
    the script prints the count and three lines for each message (date
    and id, the text cut to its first 100 characters, an empty line), in
    the order of the list, and returns; a text of at most 100 characters
    is shown whole. *)
Theorem search_script_prints_messages
    (transport : Httpx.Request -> Httpx.reply) (loads : string -> decoding)
    (py_int : string -> option Z) (py_str : value -> string)
    (slices_hashable : bool) (argv : list string) (msgs : list value) :
  (3 <= List.length argv)%nat ->
  let r := search_messages_main transport loads py_int py_str slices_hashable
                                argv in
  let chat_id := chat_id_of_arg py_int (nth 1 argv "") in
  let query := nth 2 argv "" in
  fst (search_messages transport loads
         (__init__ default_base_url default_timeout) chat_id query 10 None [])
  = Return (VList msgs) ->
  msgs <> [] ->
  Forall (fun msg => text_of msg <> None) msgs ->
  stdout r
  = ("Searching for '" ++ query ++ "' in chat " ++ format_ident chat_id ++ "...")
      :: (newline ++ "Found " ++ str_int (Z.of_nat (List.length msgs))
            ++ " message(s):" ++ newline)
      :: flat_map (lines_of py_str) msgs
  /\ ending r = Returned
  /\ (forall text : string,
        (List.length (code_points text) <= 100)%nat ->
        String.concat "" (firstn 100 (code_points text)) = text).
Proof.
  intros H. cbv zeta. intros Hres Hne Hall.
  search_run transport loads py_int py_str slices_hashable argv H.
  destruct (search_messages_body _ _ _ _ _ _ _ _) as [res [out log]].
  destruct Hrun as (_ & _ & Hrun).
  rewrite Hres in Hbody.
  destruct msgs as [| msg msgs]; [now contradiction Hne |].
  cbn [truthy negb] in Hbody.
  unfold sbind at 1 2 3 in Hbody. unfold len, iterate, py_len, py_iter in Hbody.
  cbn [sret print fst snd app] in Hbody.
  rewrite (for_each_printable py_str slices_hashable _ _ Hall) in Hbody.
  cbn [fst snd app] in Hbody.
  injection Hbody as -> -> _.
  destruct Hrun as [-> ->].
  repeat split. intros text. apply slice_of_string.
Qed.

Lemma search_script_two_messages :
  let r := search_messages_main
             (Sample.reply_with 200 ScriptSample.body_two_messages) Sample.loads
             ScriptSample.py_int ScriptSample.py_str true
             ["search_messages.py"; "@channel_name"; "hello"] in
  stdout r
  = ["Searching for 'hello' in chat @channel_name...";
     newline ++ "Found 2 message(s):" ++ newline;
     "[2024-05-01] ID: 7"; "  hello"; "";
     "[None] ID: 8"; "  (no text)"; ""]
  /\ ending r = Returned.
Proof.
  pose proof (search_script_prints_messages
                (Sample.reply_with 200 ScriptSample.body_two_messages)
                Sample.loads ScriptSample.py_int ScriptSample.py_str true
                ["search_messages.py"; "@channel_name"; "hello"]
                [VDict [("date", VStr "2024-05-01"); ("id", VInt 7);
                        ("text", VStr "hello")];
                 VDict [("id", VInt 8)]]
                (le_n 3) eq_refl) as H.
  cbv zeta in H.
  destruct H as (Hout & Hend & _).
  - discriminate.
  - repeat constructor; discriminate.
  - split; [exact Hout | exact Hend].
Defined.

(** *** example_usage.py *)

Lemma sends_quiet {A : Type} (m : Script A) : quiet m -> sends [] m.
Proof.
  intros Hq w. specialize (Hq w). destruct (m w) as [[a | e] w']; cbn in *.
  - now rewrite app_nil_r.
  - exists 0%nat. now rewrite app_nil_r.
Qed.

Lemma sends_sbind {A B : Type} (l1 l2 : list Httpx.Request) (m : Script A)
    (k : A -> Script B) :
  sends l1 m -> (forall a, sends l2 (k a)) -> sends (l1 ++ l2) (sbind m k).
Proof.
  intros Hm Hk w. unfold sbind. specialize (Hm w).
  destruct (m w) as [[a | e] w'].
  - specialize (Hk a w'). destruct (k a w') as [[b | e] w''].
    + now rewrite Hk, Hm, app_assoc.
    + destruct Hk as [n Hk]. exists (List.length l1 + n)%nat.
      now rewrite Hk, Hm, firstn_app_2, app_assoc.
  - destruct Hm as [n Hm]. exists (Nat.min n (List.length l1)).
    rewrite Hm. f_equal.
    rewrite firstn_app.
    replace (Nat.min n (List.length l1) - List.length l1)%nat with 0%nat by lia.
    cbn [firstn]. rewrite app_nil_r.
    rewrite <- (firstn_all l1) at 1. now rewrite firstn_firstn.
Qed.

Lemma sends_call_request (transport : Httpx.Request -> Httpx.reply)
    (loads : string -> decoding) (self : TelegramClient)
    (method endpoint : string) (params json_data : option dict) :
  sends [request_of self method endpoint params json_data]
        (call (_request transport loads self method endpoint params json_data)).
Proof.
  intros w. unfold call. rewrite request_run.
  destruct (unwrap_reply loads _); cbn.
  - reflexivity.
  - exists 1%nat. reflexivity.
Qed.

Section ExampleUsage.
Variable transport : Httpx.Request -> Httpx.reply.
Variable loads : string -> decoding.
Variable py_str : value -> string.
Variable exn_str : script_exn -> string.
Variable slices_hashable : bool.
Variable self : TelegramClient.

(** What is left of the try body once the health check has returned. *)
Lemma example_body_run :
  exists rest : value -> Script unit,
    (forall health,
        sends [request_of self "GET" "/me" (Some []) None;
               request_of self "GET" "/chats"
                 (Some [("page", VInt 1); ("page_size", VInt 5)]) None;
               request_of self "GET" "/chats/list"
                 (Some [("limit", VInt 5); ("archived", VBool false);
                        ("unread_only", VBool false)]) None;
               request_of self "GET" "/contacts" (Some []) None]
              (rest health))
    /\ example_usage_body transport loads py_str slices_hashable self ([], [])
       = match fst (health_check transport self []) with
         | Return health =>
             rest health (["API Health: " ++ py_str health]%string,
                          [health_request self])
         | Raise e => (inr (Exn e), ([], [health_request self]))
         end.
Proof.
  eexists. split; cycle 1.
  - unfold example_usage_body. unfold sbind at 1. rewrite call_health_check.
    cbn [fst snd app].
    destruct (fst (health_check _ _ _)) as [health | e]; cbn [as_script_result].
    + unfold sbind at 1. cbn [print fst snd app].
      instantiate (1 := fun health => _). cbn beta. reflexivity.
    + reflexivity.
  - intros health. cbn beta.
    unfold get_me, get_chats, list_chats, list_contacts, _get.
    cbn [truthy opt_str].
    change [request_of self "GET" "/me" (Some []) None;
            request_of self "GET" "/chats"
              (Some [("page", VInt 1); ("page_size", VInt 5)]) None;
            request_of self "GET" "/chats/list"
              (Some [("limit", VInt 5); ("archived", VBool false);
                     ("unread_only", VBool false)]) None;
            request_of self "GET" "/contacts" (Some []) None]
      with ([] ++ [request_of self "GET" "/me" (Some []) None]
               ++ [] ++ []
               ++ [request_of self "GET" "/chats"
                     (Some [("page", VInt 1); ("page_size", VInt 5)]) None]
               ++ [] ++ []
               ++ [request_of self "GET" "/chats/list"
                     (Some [("limit", VInt 5); ("archived", VBool false);
                            ("unread_only", VBool false)]) None]
               ++ [] ++ [] ++ []
               ++ [request_of self "GET" "/contacts" (Some []) None]
               ++ [] ++ [] ++ [])%list.
    repeat (apply sends_sbind;
            [ first [ apply sends_call_request | apply sends_quiet; quiet_steps ]
            | intros ? ]).
    apply sends_quiet; quiet_steps.
Qed.

End ExampleUsage.

Lemma invoke_outcome_any_log (transport : Httpx.Request -> Httpx.reply)
    (loads : string -> decoding) (self : TelegramClient) (op : operation)
    (log log' : list Httpx.Request) :
  fst (invoke transport loads self op log)
  = fst (invoke transport loads self op log').
Proof. now rewrite !invoke_run. Qed.

(** example_usage.py never fails and never exits: whatever the service
    answers and whatever the results hold, [main()] returns, with the
    client closed, once.  Its requests are the health check, then the
    current user, the first page of five chats, the list of five chats
    and the contacts, in this order and on the local address; the health
    check is always sent, and the script sends nothing more after the
    first step that raises. *)
Theorem example_usage_returns_and_closes
    (transport : Httpx.Request -> Httpx.reply) (loads : string -> decoding)
    (py_str : value -> string) (exn_str : script_exn -> string)
    (slices_hashable : bool) :
  let r := example_usage_main transport loads py_str exn_str slices_hashable in
  let get path query :=
    {| Httpx.method := "GET"; Httpx.url := "http://localhost:8080" ++ path;
       Httpx.params := query; Httpx.json := None |} in
  ending r = Returned
  /\ (exists c,
         client r = Some c
         /\ Httpx.is_closed (_client c) = true
         /\ Httpx.transport_closes (_client c) = 1%nat)
  /\ (exists k,
         requests r
         = firstn (S k)
             [get "/health" None;
              get "/me" (Some []);
              get "/chats" (Some [("page", VInt 1); ("page_size", VInt 5)]);
              get "/chats/list" (Some [("limit", VInt 5); ("archived", VBool false);
                                       ("unread_only", VBool false)]);
              get "/contacts" (Some [])]).
Proof.
  cbv zeta. unfold example_usage_main.
  destruct (example_body_run transport loads py_str slices_hashable
              (__init__ "http://localhost:8080" default_timeout))
    as (rest & Hsends & ->).
  destruct (fst (health_check _ _ _)) as [health | e].
  - specialize (Hsends health (["API Health: " ++ py_str health]%string,
                               [health_request
                                  (__init__ "http://localhost:8080"
                                            default_timeout)])).
    destruct (rest health _) as [[u | e] [out log]]; cbn [snd] in Hsends.
    + repeat split; [eexists; repeat split |]. exists 4%nat. cbn [requests].
      rewrite Hsends. reflexivity.
    + destruct Hsends as [k Hk]. repeat split; [eexists; repeat split |].
      exists k. destruct e as [[] |]; cbn [requests]; rewrite Hk; reflexivity.
  - repeat split; [eexists; repeat split |]. exists 0%nat.
    destruct e; reflexivity.
Qed.

(** example_usage.py, what it prints on a failure: when the connection
    for the health check fails, only the health check is sent and the
    script prints the exception after Error and the hint to start the
    service; when a later call raises [TelegramClientError], the script
    prints its message after Telegram API Error, and no hint. *)
Theorem example_usage_reports_failures
    (transport : Httpx.Request -> Httpx.reply) (loads : string -> decoding)
    (py_str : value -> string) (exn_str : script_exn -> string)
    (slices_hashable : bool) :
  let r := example_usage_main transport loads py_str exn_str slices_hashable in
  let self := __init__ "http://localhost:8080" default_timeout in
  (forall name message,
      transport (health_request self) = Httpx.Failed name message ->
      requests r = [health_request self]
      /\ stdout r = ["Error: " ++ exn_str (Exn (LibraryError name message));
                     newline ++ "Make sure the Telegram API is running:";
                     "  docker compose up telegram-api"])
  /\ (forall health arg,
        fst (health_check transport self []) = Return health ->
        fst (get_me transport loads self []) = Raise (TelegramClientError arg) ->
        requests r = [health_request self;
                      request_of self "GET" "/me" (Some []) None]
        /\ stdout r = ["API Health: " ++ py_str health;
                       newline ++ "--- Current User ---";
                       "Telegram API Error: " ++ py_str arg]).
Proof.
  cbv zeta. unfold example_usage_main. split.
  - intros name message Hfail.
    assert (Hb : example_usage_body transport loads py_str slices_hashable
                   (__init__ "http://localhost:8080" default_timeout) ([], [])
                 = (inr (Exn (LibraryError name message)),
                    ([], [health_request
                            (__init__ "http://localhost:8080" default_timeout)]))).
    { unfold example_usage_body. unfold sbind at 1.
      rewrite call_health_check, health_check_run, Hfail. reflexivity. }
    rewrite Hb. split; reflexivity.
  - intros health arg Hhealth Hme.
    assert (Hb : example_usage_body transport loads py_str slices_hashable
                   (__init__ "http://localhost:8080" default_timeout) ([], [])
                 = (inr (Exn (TelegramClientError arg)),
                    (["API Health: " ++ py_str health;
                      newline ++ "--- Current User ---"]%string,
                     [health_request
                        (__init__ "http://localhost:8080" default_timeout);
                      request_of (__init__ "http://localhost:8080" default_timeout)
                                 "GET" "/me" (Some []) None]))).
    { unfold example_usage_body. unfold sbind at 1.
      rewrite call_health_check. cbn [fst snd app].
      rewrite Hhealth. cbn [as_script_result].
      unfold sbind at 1 2 3. cbn [print fst snd app].
      change (get_me transport loads ?c) with (invoke transport loads c GetMe) in *.
      rewrite call_invoke. cbn [fst snd app].
      rewrite (invoke_outcome_any_log _ _ _ _ _ []), Hme. reflexivity. }
    rewrite Hb. split; reflexivity.
Qed.

(** The service is down: one request, and the hint. *)
Example example_usage_service_down :
  example_usage_main Sample.connection_refused Sample.loads ScriptSample.py_str
                     ScriptSample.exn_str true
  = {| stdout := ["Error: ?";
                  newline ++ "Make sure the Telegram API is running:";
                  "  docker compose up telegram-api"];
       requests := [{| Httpx.method := "GET";
                       Httpx.url := "http://localhost:8080/health";
                       Httpx.params := None; Httpx.json := None |}];
       client := Some (close (__init__ "http://localhost:8080" default_timeout));
       ending := Returned |}.
Proof. reflexivity. Qed.

(** Every call is answered with a list of two dicts: five requests, and
    a line for each chat and each contact. *)
Example example_usage_full_run :
  let r := example_usage_main
             (Sample.reply_with 200 ScriptSample.body_two_messages) Sample.loads
             ScriptSample.py_str ScriptSample.exn_str true in
  map Httpx.url (requests r)
  = ["http://localhost:8080/health"; "http://localhost:8080/me";
     "http://localhost:8080/chats"; "http://localhost:8080/chats/list";
     "http://localhost:8080/contacts"]
  /\ stdout r
     = ["API Health: ?";
        newline ++ "--- Current User ---"; "User: ?";
        newline ++ "--- Recent Chats ---"; "?";
        newline ++ "--- Chats with Metadata ---";
        "  - None (ID: 7, Unread: 0)"; "  - None (ID: 8, Unread: 0)";
        newline ++ "--- Contacts ---";
        "  - None (no username)"; "  - None (no username)"]
  /\ ending r = Returned.
Proof. cbv zeta. repeat split; reflexivity. Qed.
